(** * ViewNudger: screen-space nudging of a camera or an object

    A shallow embedding of [ViewNudger/api.py] and the properties its
    specification states about it.

    Numbers.  Python floats and Maya doubles are idealised as real numbers
    ([R]); rounding is outside this model, so "within tolerance" is proved
    as equality.  What Python does beyond arithmetic is kept: a division by
    zero raises [ZeroDivisionError], arithmetic on [None] raises [TypeError].

    Host.  The Maya API objects the module calls ([MPoint], [MVector],
    [MMatrix], [M3dView], [MFnCamera], [cmds]) are not part of the
    repository.  Their values are records, their operators follow the Maya
    documentation (row vectors, [p * M]), and every command sent to [cmds]
    is recorded in a trace. *)

From Stdlib Require Import Reals Lra Psatz ZArith String List Bool.
Import ListNotations.
Local Open Scope R_scope.

(* ===================================================================== *)
(** * Maya value types                                                    *)
(* ===================================================================== *)

Module Maya.

(** [OpenMaya.MVector]: a direction or a displacement. *)
Record MVector : Type := mkVector { vx : R; vy : R; vz : R }.

(** [OpenMaya.MPoint]: a homogeneous point; [MPoint(x, y, z)] has [w = 1]. *)
Record MPoint : Type := mkPoint4 { px : R; py : R; pz : R; pw : R }.

(** [OpenMaya.MMatrix]: four rows; a point is a row vector, so rows are
    images of the axes and [row3] is the image of the origin. *)
Record MMatrix : Type :=
  mkMatrix { row0 : MPoint; row1 : MPoint; row2 : MPoint; row3 : MPoint }.

Definition mkPoint (x y z : R) : MPoint := mkPoint4 x y z 1.

(** [MPoint(v)] and [MVector(p)]. *)
Definition MPoint_of_vector (v : MVector) : MPoint :=
  mkPoint (vx v) (vy v) (vz v).
Definition MVector_of_point (p : MPoint) : MVector :=
  mkVector (px p) (py p) (pz p).

(** [p - q] on points gives the vector between them.  The coordinates are
    subtracted as they stand; w is 1 on every point the module subtracts in
    a pinhole view (cf. [pinhole_unprojected]). *)
Definition pt_sub (p q : MPoint) : MVector :=
  mkVector (px p - px q) (py p - py q) (pz p - pz q).

(** [u + v], [v * s] and the dot product [u * v] on vectors. *)
Definition v_add (u v : MVector) : MVector :=
  mkVector (vx u + vx v) (vy u + vy v) (vz u + vz v).
Definition v_scale (v : MVector) (s : R) : MVector :=
  mkVector (vx v * s) (vy v * s) (vz v * s).
Definition dot (u v : MVector) : R :=
  vx u * vx v + vy u * vy v + vz u * vz v.

(** [v.length()], [v.normalize()] (the zero vector stays zero, as
    [0 * / 0 = 0]) and [u.angle(v)] in radians. *)
Definition length (v : MVector) : R := sqrt (dot v v).
Definition normalize (v : MVector) : MVector := v_scale v (/ length v).
Definition angle (u v : MVector) : R :=
  acos (dot u v / (length u * length v)).

Definition zero_vector : MVector := mkVector 0 0 0.

(** Linear structure of homogeneous rows. *)
Definition h_add (p q : MPoint) : MPoint :=
  mkPoint4 (px p + px q) (py p + py q) (pz p + pz q) (pw p + pw q).
Definition h_scale (s : R) (p : MPoint) : MPoint :=
  mkPoint4 (s * px p) (s * py p) (s * pz p) (s * pw p).

(** [p * M]: the row vector [p] times [M]. *)
Definition pt_mul (p : MPoint) (m : MMatrix) : MPoint :=
  h_add (h_add (h_scale (px p) (row0 m)) (h_scale (py p) (row1 m)))
        (h_add (h_scale (pz p) (row2 m)) (h_scale (pw p) (row3 m))).

(** [A * B]. *)
Definition mat_mul (a b : MMatrix) : MMatrix :=
  mkMatrix (pt_mul (row0 a) b) (pt_mul (row1 a) b)
           (pt_mul (row2 a) b) (pt_mul (row3 a) b).

Definition identity : MMatrix :=
  mkMatrix (mkPoint4 1 0 0 0) (mkPoint4 0 1 0 0)
           (mkPoint4 0 0 1 0) (mkPoint4 0 0 0 1).

(** [M(r, c)]; an index out of range reads as 0 (the module only reads
    [(3, 2)] and [(3, 3)]). *)
Definition comp (p : MPoint) (c : nat) : R :=
  match c with
  | 0%nat => px p | 1%nat => py p | 2%nat => pz p | 3%nat => pw p
  | _ => 0
  end.
Definition mat_get (m : MMatrix) (r c : nat) : R :=
  match r with
  | 0%nat => comp (row0 m) c | 1%nat => comp (row1 m) c
  | 2%nat => comp (row2 m) c | 3%nat => comp (row3 m) c
  | _ => 0
  end.

(** [M.inverse()]: the adjugate over the determinant, by the 2x2 minors of
    the upper two rows ([s0..s5]) and of the lower two rows ([c0..c5]). *)
Definition det (m : MMatrix) : R :=
  let 'mkMatrix (mkPoint4 a00 a01 a02 a03) (mkPoint4 a10 a11 a12 a13)
                (mkPoint4 a20 a21 a22 a23) (mkPoint4 a30 a31 a32 a33) := m in
  let s0 := a00 * a11 - a10 * a01 in let s1 := a00 * a12 - a10 * a02 in
  let s2 := a00 * a13 - a10 * a03 in let s3 := a01 * a12 - a11 * a02 in
  let s4 := a01 * a13 - a11 * a03 in let s5 := a02 * a13 - a12 * a03 in
  let c5 := a22 * a33 - a32 * a23 in let c4 := a21 * a33 - a31 * a23 in
  let c3 := a21 * a32 - a31 * a22 in let c2 := a20 * a33 - a30 * a23 in
  let c1 := a20 * a32 - a30 * a22 in let c0 := a20 * a31 - a30 * a21 in
  s0 * c5 - s1 * c4 + s2 * c3 + s3 * c2 - s4 * c1 + s5 * c0.

Definition inverse (m : MMatrix) : MMatrix :=
  let 'mkMatrix (mkPoint4 a00 a01 a02 a03) (mkPoint4 a10 a11 a12 a13)
                (mkPoint4 a20 a21 a22 a23) (mkPoint4 a30 a31 a32 a33) := m in
  let s0 := a00 * a11 - a10 * a01 in let s1 := a00 * a12 - a10 * a02 in
  let s2 := a00 * a13 - a10 * a03 in let s3 := a01 * a12 - a11 * a02 in
  let s4 := a01 * a13 - a11 * a03 in let s5 := a02 * a13 - a12 * a03 in
  let c5 := a22 * a33 - a32 * a23 in let c4 := a21 * a33 - a31 * a23 in
  let c3 := a21 * a32 - a31 * a22 in let c2 := a20 * a33 - a30 * a23 in
  let c1 := a20 * a32 - a30 * a22 in let c0 := a20 * a31 - a30 * a21 in
  let d := det m in
  mkMatrix
    (mkPoint4 ((  a11 * c5 - a12 * c4 + a13 * c3) / d)
              ((- a01 * c5 + a02 * c4 - a03 * c3) / d)
              ((  a31 * s5 - a32 * s4 + a33 * s3) / d)
              ((- a21 * s5 + a22 * s4 - a23 * s3) / d))
    (mkPoint4 ((- a10 * c5 + a12 * c2 - a13 * c1) / d)
              ((  a00 * c5 - a02 * c2 + a03 * c1) / d)
              ((- a30 * s5 + a32 * s2 - a33 * s1) / d)
              ((  a20 * s5 - a22 * s2 + a23 * s1) / d))
    (mkPoint4 ((  a10 * c4 - a11 * c2 + a13 * c0) / d)
              ((- a00 * c4 + a01 * c2 - a03 * c0) / d)
              ((  a30 * s4 - a31 * s2 + a33 * s0) / d)
              ((- a20 * s4 + a21 * s2 - a23 * s0) / d))
    (mkPoint4 ((- a10 * c3 + a11 * c1 - a12 * c0) / d)
              ((  a00 * c3 - a01 * c1 + a02 * c0) / d)
              ((- a30 * s3 + a31 * s1 - a32 * s0) / d)
              ((  a20 * s3 - a21 * s1 + a22 * s0) / d)).

(** [OpenMaya.MFnCamera] on the view's camera: what the module reads. *)
Record MFnCamera : Type := mkCamera {
  eyePoint : MPoint;          (* eyePoint(kWorld) *)
  viewDirection : MVector;    (* viewDirection(kWorld) *)
  fullPathName : string
}.

(** [OpenMayaUI.M3dView]: one snapshot of the viewport. *)
Record M3dView : Type := mkView {
  projectionMatrix : MMatrix;
  modelViewMatrix : MMatrix;
  portWidth : Z;
  portHeight : Z;
  viewCamera : MFnCamera
}.

End Maya.
Import Maya.

(* ===================================================================== *)
(** * Python values, exceptions and host commands                         *)
(* ===================================================================== *)

(** The three [raise RuntimeError(...)] sites of [parseArgs], by message. *)
Inductive RaiseSite : Type :=
| NoTransformName     (* "No transformName supplied." *)
| NotATransform       (* "... either does not exist or isn't a transform." *)
| NotAModelPanel      (* "... is not a model panel or view." *)
| NotAView.           (* "... is not a view." *)

Inductive PyErr : Type :=
| TypeError
| ZeroDivisionError
| RuntimeError (site : RaiseSite).

(** A computation that returns or raises. *)
Inductive Exc (A : Type) : Type :=
| Ok (a : A)
| Raise (e : PyErr).
Arguments Ok {A} a.
Arguments Raise {A} e.

Definition bind {A B : Type} (c : Exc A) (k : A -> Exc B) : Exc B :=
  match c with
  | Ok a => k a
  | Raise e => Raise e
  end.

Notation "x <- c ;; k" := (bind c (fun x => k))
  (at level 61, c at next level, right associativity).

(** What [worldToScreen] puts in a coordinate: [None] or a float. *)
Inductive PyVal : Type :=
| PyNone
| PyFloat (r : R).

(** [a + b] with [b] a float: [None + float] is a [TypeError]. *)
Definition py_add (a : PyVal) (b : R) : Exc R :=
  match a with
  | PyNone => Raise TypeError
  | PyFloat r => Ok (r + b)
  end.

(** [a / b] on floats (true division). *)
Definition py_div (a b : R) : Exc R :=
  if Req_dec_T b 0 then Raise ZeroDivisionError else Ok (a / b).

(** [a / n] with [n] an int: the operand types are checked first. *)
Definition py_div_int (a : PyVal) (n : Z) : Exc R :=
  match a with
  | PyNone => Raise TypeError
  | PyFloat r => py_div r (IZR n)
  end.

(** [math.degrees]. *)
Definition degrees (r : R) : R := r * (180 / PI).

(** A value passed as [view] to [parseArgs]. *)
Inductive PyArg : Type :=
| ArgNone
| ArgBool (b : bool)
| ArgInt (n : Z)
| ArgStr (s : string)
| ArgView (v : M3dView).

(** Python truth value, as [not view] tests it. *)
Definition truthy (a : PyArg) : bool :=
  match a with
  | ArgNone => false
  | ArgBool b => b
  | ArgInt n => negb (n =? 0)%Z
  | ArgStr s => negb (s =? "")%string
  | ArgView _ => true
  end.

Definition type_is_M3dView (a : PyArg) : bool :=
  match a with ArgView _ => true | _ => false end.
Definition type_is_str (a : PyArg) : bool :=
  match a with ArgStr _ => true | _ => false end.

(** The commands the module sends to [maya.cmds], in order. *)
Inductive Cmd : Type :=
| UndoOpenChunk                                       (* undoInfo(openChunk=True) *)
| UndoCloseChunk                                      (* undoInfo(closeChunk=True) *)
| Move (x y z : R) (node : string) (relative : bool)
| Rotate (x y z : R) (node : string) (objectSpace relative : bool).

(** What the module asks of the running session. *)
Record Host : Type := mkHost {
  objExists : string -> bool;
  nodeType : string -> string;
  xformTranslation : string -> R * R * R;   (* xform(q, ws, t) *)
  active3dView : M3dView;
  getM3dViewFromModelPanel : string -> option M3dView
}.

(* ===================================================================== *)
(** * The module                                                          *)
(* ===================================================================== *)

(** [getCamera(view)] (api.py, lines 175-192). *)
Definition getCamera (view : M3dView) : MFnCamera := viewCamera view.

(** [worldToScreen] (lines 195-241): the tuple [(None, None)] or two
    floats; the two divisions by [point3D.w] can raise. *)
Definition worldToScreen (fnCamera : MFnCamera) (cameraPoint transformPoint : MPoint)
    (view : M3dView) : Exc (PyVal * PyVal) :=
  let cameraDir := viewDirection fnCamera in
  let projMatrix := projectionMatrix view in
  let viewMatrix := modelViewMatrix view in
  let width := portWidth view in
  let height := portHeight view in
  let pointDir := pt_sub transformPoint cameraPoint in
  let z := dot pointDir cameraDir in
  if Rlt_dec z 0.01 then Ok (PyNone, PyNone)
  else
    let point3D := pt_mul transformPoint (mat_mul viewMatrix projMatrix) in
    nx <- py_div (px point3D) (pw point3D) ;;
    let x := ((nx + 1) / 2) * IZR width in
    ny <- py_div (py point3D) (pw point3D) ;;
    let y := ((ny + 1) / 2) * IZR height in
    Ok (PyFloat x, PyFloat y).

(** [screenToWorld] (lines 244-293).  [point2D[0] / width] raises on a
    [None] coordinate and on a viewport of width 0. *)
Definition screenToWorld (point2D : PyVal * PyVal) (cameraPoint : MPoint)
    (setDistance : R) (view : M3dView) : Exc MPoint :=
  let projMatrix := projectionMatrix view in
  let viewMatrix := modelViewMatrix view in
  let width := portWidth view in
  let height := portHeight view in
  qx <- py_div_int (fst point2D) width ;;
  let x := 2 * qx - 1 in
  qy <- py_div_int (snd point2D) height ;;
  let y := 2 * qy - 1 in
  let viewProjectionMatrix := mat_mul viewMatrix projMatrix in
  let z := mat_get viewProjectionMatrix 3 2 in
  let w := mat_get viewProjectionMatrix 3 3 in
  let x := x * w in
  let y := y * w in
  let point3D := pt_mul (mkPoint4 x y z w) (inverse viewProjectionMatrix) in
  let directionVec := normalize (pt_sub point3D cameraPoint) in
  let point3D := v_add (v_scale directionVec setDistance)
                       (MVector_of_point cameraPoint) in
  Ok (MPoint_of_vector point3D).

(** The [MPoint] of the three floats that
    [cmds.xform(name, query=True, worldSpace=True, translation=True)] returns. *)
Definition worldTranslation (h : Host) (transformName : string) : MPoint :=
  let '(tx, ty, tz) := xformTranslation h transformName in mkPoint tx ty tz.

(** The local variables [nudge] holds when it reaches
    [undoInfo(openChunk=True)] (line 129). *)
Record Solved : Type := mkSolved {
  cameraPoint : MPoint;
  transformPoint : MPoint;
  startDirVec : MVector;      (* normalized *)
  pointDist : R;
  xyz_x : MPoint;             (* pointAtDx *)
  xyz_y : MPoint              (* pointAtDy *)
}.

(** [nudge], lines 99-124: the camera, the target, the projection of the
    target and the two [screenToWorld] calls.  [x + pixelAmount[0]] is where
    the [None] of a failed projection raises. *)
Definition nudge_solve (h : Host) (transformName : string) (pixelAmount : R * R)
    (view : M3dView) : Exc Solved :=
  let fnCamera := getCamera view in
  let cameraPoint := eyePoint fnCamera in
  let transformPoint := worldTranslation h transformName in
  let startDirVec := pt_sub transformPoint cameraPoint in
  let pointDist := length startDirVec in
  let startDirVec := normalize startDirVec in
  xy <- worldToScreen fnCamera cameraPoint transformPoint view ;;
  let '(x, y) := xy in
  x_dx <- py_add x (fst pixelAmount) ;;
  xyz_x <- screenToWorld (PyFloat x_dx, y) cameraPoint pointDist view ;;
  y_dy <- py_add y (snd pixelAmount) ;;
  xyz_y <- screenToWorld (x, PyFloat y_dy) cameraPoint pointDist view ;;
  Ok (mkSolved cameraPoint transformPoint startDirVec pointDist xyz_x xyz_y).

(** [offsetX] and [offsetY] (lines 126-127). *)
Definition offsetX (s : Solved) : MVector :=
  v_add (pt_sub (xyz_x s) (transformPoint s)) (MVector_of_point (transformPoint s)).
Definition offsetY (s : Solved) : MVector :=
  v_add (pt_sub (xyz_y s) (transformPoint s)) (MVector_of_point (transformPoint s)).

(** [angleX] and [angleY] of the [rotateView] branch (lines 159-165). *)
Definition angleX (s : Solved) : R :=
  let x_nDirVec := normalize (pt_sub (xyz_x s) (cameraPoint s)) in
  degrees (angle (startDirVec s) x_nDirVec).
Definition angleY (s : Solved) : R :=
  let y_nDirVec := normalize (pt_sub (xyz_y s) (cameraPoint s)) in
  - degrees (angle (startDirVec s) y_nDirVec).

(** [nudge], lines 129-172: the commands sent, every move with
    [relative=True], the rotation with [objectSpace=True, relative=True]. *)
Definition nudge_apply (s : Solved) (transformName cameraName : string)
    (moveObject rotateView : bool) : list Cmd :=
  [UndoOpenChunk]
  ++ (if moveObject then
        [ Move (vx (offsetX s)) (vy (offsetX s)) (vz (offsetX s)) transformName true;
          Move (vx (offsetY s)) (vy (offsetY s)) (vz (offsetY s)) transformName true ]
      else
        [ Move (vx (offsetX s)) (vy (offsetX s)) (vz (offsetX s)) cameraName true;
          Move (vx (offsetY s)) (vy (offsetY s)) (vz (offsetY s)) cameraName true ]
        ++ (if rotateView then
              [ Rotate (angleY s) (angleX s) 0 cameraName true true ]
            else []))
  ++ [UndoCloseChunk].

(** [nudge] (lines 78-172): the commands it sent, and how it ended.  An
    exception leaves before the first command. *)
Definition nudge (h : Host) (transformName : string) (pixelAmount : R * R)
    (moveObject rotateView : bool) (view : M3dView) : list Cmd * Exc unit :=
  match nudge_solve h transformName pixelAmount view with
  | Raise e => ([], Raise e)
  | Ok s =>
      (nudge_apply s transformName (fullPathName (getCamera view))
                   moveObject rotateView,
       Ok tt)
  end.

(** [parseArgs], lines 42-68: the view it resolved, or the error it
    raised.  [not type(view) is M3dView and type(view) is str] holds of a
    [str] only, so the inner default branch is never taken. *)
Definition parseArgs_checks (h : Host) (transformName : string) (view : PyArg)
    : Exc M3dView :=
  if (transformName =? "")%string then Raise (RuntimeError NoTransformName)
  else if negb (objExists h transformName)
          || negb (nodeType h transformName =? "transform")%string
  then Raise (RuntimeError NotATransform)
  else if negb (truthy view) then Ok (active3dView h)
  else if negb (type_is_M3dView view) && type_is_str view then
    match view with
    | ArgStr viewStr =>
        match getM3dViewFromModelPanel h viewStr with
        | Some v => Ok v
        | None => Raise (RuntimeError NotAModelPanel)
        end
    | _ => Raise (RuntimeError NotAView)
    end
  else Raise (RuntimeError NotAView).

(** [parseArgs] (lines 19-75): the checks, then [nudge] on the resolved
    view. *)
Definition parseArgs (h : Host) (transformName : string) (pixelAmount : R * R)
    (moveObject rotateView : bool) (view : PyArg) : list Cmd * Exc unit :=
  match parseArgs_checks h transformName view with
  | Raise e => ([], Raise e)
  | Ok v => nudge h transformName pixelAmount moveObject rotateView v
  end.

(* ===================================================================== *)
(** * Quantities the properties speak of                                  *)
(* ===================================================================== *)

(** The depth test of [worldToScreen]: the target's offset from the camera
    along the view direction. *)
Definition depth (fnCamera : MFnCamera) (cameraPoint transformPoint : MPoint) : R :=
  dot (pt_sub transformPoint cameraPoint) (viewDirection fnCamera).

(** The target in clip coordinates. *)
Definition clip (view : M3dView) (transformPoint : MPoint) : MPoint :=
  pt_mul transformPoint (mat_mul (modelViewMatrix view) (projectionMatrix view)).

(** A pixel coordinate in normalized device coordinates. *)
Definition ndc (p : R) (dimension : Z) : R := 2 * (p / IZR dimension) - 1.

(** The point [screenToWorld] un-projects pixel (x, y) to, before it is
    moved to [setDistance]: z and w are read from row 3 of the
    view-projection matrix. *)
Definition unprojected (view : M3dView) (x y : R) : MPoint :=
  let vp := mat_mul (modelViewMatrix view) (projectionMatrix view) in
  let z := mat_get vp 3 2 in
  let w := mat_get vp 3 3 in
  pt_mul (mkPoint4 (ndc x (portWidth view) * w) (ndc y (portHeight view) * w) z w)
         (inverse vp).

(** The point at [setDistance] from [cameraPoint] toward [point3D]. *)
Definition at_distance (point3D cameraPoint : MPoint) (setDistance : R) : MPoint :=
  MPoint_of_vector
    (v_add (v_scale (normalize (pt_sub point3D cameraPoint)) setDistance)
           (MVector_of_point cameraPoint)).

(** The distance between two points. *)
Definition distance (p q : MPoint) : R := length (pt_sub p q).

(** The world origin. *)
Definition origin : MPoint := mkPoint 0 0 0.

(** The mirror image of [p] through [c]. *)
Definition mirrored (p c : MPoint) : MPoint :=
  mkPoint (2 * px c - px p) (2 * py c - py p) (2 * pz c - pz p).

(** A view whose matrices and camera describe one pinhole camera: the
    view-projection matrix is invertible; the clip w of a point is its depth
    along the view direction; the eye is the centre of projection (clip x
    and y are 0 there); clip z is an affine function of clip w.  Maya's
    perspective cameras are of this kind. *)
Definition pinhole (view : M3dView) : Prop :=
  let vp := mat_mul (modelViewMatrix view) (projectionMatrix view) in
  let cam := getCamera view in
  det vp <> 0
  /\ pw (eyePoint cam) = 1
  /\ (forall X, pw X = 1 -> pw (pt_mul X vp) = depth cam (eyePoint cam) X)
  /\ px (pt_mul (eyePoint cam) vp) = 0
  /\ py (pt_mul (eyePoint cam) vp) = 0
  /\ (exists a b, forall X, pw X = 1 -> pz (pt_mul X vp) = a * pw (pt_mul X vp) + b).

(** The shape of Maya's matrices for a perspective camera.  A model-view
    matrix is affine; a perspective projection sends eye-space -z to clip w
    and leaves the eye-space origin on the clip z axis. *)
Definition affine (m : MMatrix) : Prop :=
  pw (row0 m) = 0 /\ pw (row1 m) = 0 /\ pw (row2 m) = 0 /\ pw (row3 m) = 1.

Definition perspective (m : MMatrix) : Prop :=
  pz (row0 m) = 0 /\ pw (row0 m) = 0
  /\ pz (row1 m) = 0 /\ pw (row1 m) = 0
  /\ pw (row2 m) = -1
  /\ px (row3 m) = 0 /\ py (row3 m) = 0 /\ pw (row3 m) = 0.

(** The camera sits at the eye-space origin and looks down eye-space -z. *)
Definition camera_of_view (view : M3dView) : Prop :=
  let v := modelViewMatrix view in
  let cam := getCamera view in
  pw (eyePoint cam) = 1
  /\ pt_mul (eyePoint cam) v = mkPoint 0 0 0
  /\ viewDirection cam
     = mkVector (- pz (row0 v)) (- pz (row1 v)) (- pz (row2 v)).

(** Whether a command changes the transform of [node], and whether a trace
    holds such a command. *)
Definition mutates (node : string) (c : Cmd) : bool :=
  match c with
  | Move _ _ _ n _ => (n =? node)%string
  | Rotate _ _ _ n _ _ => (n =? node)%string
  | UndoOpenChunk | UndoCloseChunk => false
  end.

Definition mutated (trace : list Cmd) (node : string) : bool :=
  existsb (mutates node) trace.

(** The sum of the relative moves a trace applies to [node]. *)
Fixpoint net_translation (trace : list Cmd) (node : string) : MVector :=
  match trace with
  | [] => zero_vector
  | Move x y z n true :: rest =>
      if (n =? node)%string
      then v_add (mkVector x y z) (net_translation rest node)
      else net_translation rest node
  | _ :: rest => net_translation rest node
  end.

(** A transform name that passes the first two checks. *)
Definition valid_transform (h : Host) (transformName : string) : Prop :=
  transformName <> ""%string
  /\ objExists h transformName = true
  /\ nodeType h transformName = "transform"%string.

(* ===================================================================== *)
(** * A sample session                                                    *)
(* ===================================================================== *)

(** The scene of the specification's example: a camera at (0,0,10) looking
    toward -z, a 1920x1080 viewport, a symmetric perspective projection
    (near 1, far 3), and one transform [pSphere1] at position [t]. *)
Module Demo.

Definition proj : MMatrix :=
  mkMatrix (mkPoint4 1 0 0 0) (mkPoint4 0 1 0 0)
           (mkPoint4 0 0 (-2) (-1)) (mkPoint4 0 0 (-3) 0).

(** World to eye for a camera at [eye] that is not rotated. *)
Definition view_matrix (eye : R * R * R) : MMatrix :=
  let '(ex, ey, ez) := eye in
  mkMatrix (mkPoint4 1 0 0 0) (mkPoint4 0 1 0 0)
           (mkPoint4 0 0 1 0) (mkPoint4 (- ex) (- ey) (- ez) 1).

Definition camera (eye : R * R * R) : MFnCamera :=
  let '(ex, ey, ez) := eye in
  mkCamera (mkPoint ex ey ez) (mkVector 0 0 (-1)) "|persp|perspShape".

Definition view_at (eye : R * R * R) : M3dView :=
  mkView proj (view_matrix eye) 1920 1080 (camera eye).

Definition view : M3dView := view_at (0, 0, 10).

Definition host (v : M3dView) (t : R * R * R) : Host :=
  mkHost (fun n => (n =? "pSphere1")%string)
         (fun _ => "transform"%string)
         (fun _ => t)
         v
         (fun n => if (n =? "modelPanel4")%string then Some v else None).

End Demo.

(* ===================================================================== *)
(** * The command kinds, the error table and the script                  *)
(* ===================================================================== *)


Definition is_move (c : Cmd) : bool :=
  match c with
  | Move _ _ _ _ _ => true
  | UndoOpenChunk | UndoCloseChunk | Rotate _ _ _ _ _ _ => false
  end.

Definition is_rotate (c : Cmd) : bool :=
  match c with
  | Rotate _ _ _ _ _ _ => true
  | UndoOpenChunk | UndoCloseChunk | Move _ _ _ _ _ => false
  end.

(** The script body (lines 295-301): [parseArgs] on [pSphere1], ten pixels
    each way, camera mode with re-aim, and no [view] argument. *)
Definition main (h : Host) : list Cmd * Exc unit :=
  let pixelAmount := (10, 10) in
  parseArgs h "pSphere1" pixelAmount false true ArgNone.


(* ===================================================================== *)
(** * Matrices and vectors                                              *)
(* ===================================================================== *)

Ltac maya_unfold :=
  cbv beta iota zeta delta
    [pt_mul mat_mul h_add h_scale identity mat_get comp
     pt_sub v_add v_scale dot mkPoint MPoint_of_vector MVector_of_point
     px py pz pw vx vy vz row0 row1 row2 row3
     projectionMatrix modelViewMatrix portWidth portHeight viewCamera
     eyePoint viewDirection fullPathName getCamera fst snd
     worldTranslation Demo.proj Demo.view_matrix Demo.camera Demo.view_at Demo.view Demo.host
     xformTranslation active3dView objExists nodeType getM3dViewFromModelPanel] in *.

Lemma point_eq (p q : MPoint) :
  px p = px q -> py p = py q -> pz p = pz q -> pw p = pw q -> p = q.
Proof. destruct p, q; cbn; intros; subst; reflexivity. Qed.

Lemma vector_eq (u v : MVector) :
  vx u = vx v -> vy u = vy v -> vz u = vz v -> u = v.
Proof. destruct u, v; cbn; intros; subst; reflexivity. Qed.

Lemma mat_mul_inverse_r (m : MMatrix) :
  det m <> 0 -> mat_mul m (inverse m) = identity.
Proof.
  intros H.
  destruct m as [[a00 a01 a02 a03] [a10 a11 a12 a13]
                 [a20 a21 a22 a23] [a30 a31 a32 a33]].
  unfold mat_mul, inverse, identity, pt_mul, h_add, h_scale.
  unfold det in *. cbn in *.
  f_equal; f_equal; field; exact H.
Qed.

Lemma pt_mul_assoc (p : MPoint) (a b : MMatrix) :
  pt_mul (pt_mul p a) b = pt_mul p (mat_mul a b).
Proof. apply point_eq; maya_unfold; ring. Qed.

Lemma pt_mul_identity (p : MPoint) : pt_mul p identity = p.
Proof. destruct p; apply point_eq; maya_unfold; ring. Qed.

(** Un-projecting the image of [q] gives [q] back. *)
Lemma unproject_image (m : MMatrix) (p q : MPoint) :
  det m <> 0 -> pt_mul q m = p -> pt_mul p (inverse m) = q.
Proof.
  intros Hd <-.
  rewrite pt_mul_assoc, (mat_mul_inverse_r m Hd). apply pt_mul_identity.
Qed.

Lemma pt_mul_linear (a b : R) (p q : MPoint) (m : MMatrix) :
  pt_mul (h_add (h_scale a p) (h_scale b q)) m
    = h_add (h_scale a (pt_mul p m)) (h_scale b (pt_mul q m)).
Proof. apply point_eq; maya_unfold; ring. Qed.

Lemma pt_mul_origin (m : MMatrix) : pt_mul origin m = row3 m.
Proof. destruct m as [r0 r1 r2 [x y z w]]. apply point_eq; unfold origin; maya_unfold; ring. Qed.

Lemma dot_self_nonneg (v : MVector) : 0 <= dot v v.
Proof. unfold dot. nra. Qed.

Lemma length_nonneg (v : MVector) : 0 <= length v.
Proof. apply sqrt_pos. Qed.

Lemma length_sqr (v : MVector) : length v * length v = dot v v.
Proof. apply sqrt_sqrt, dot_self_nonneg. Qed.

Lemma length_zero_iff (v : MVector) : length v = 0 <-> v = zero_vector.
Proof.
  split.
  - intros H. pose proof (length_sqr v) as Hs. rewrite H in Hs.
    unfold dot in Hs. apply vector_eq; cbn; nra.
  - intros ->. unfold length, dot; cbn.
    replace (0 * 0 + 0 * 0 + 0 * 0) with 0 by ring. apply sqrt_0.
Qed.

Lemma length_pos (v : MVector) : v <> zero_vector -> 0 < length v.
Proof.
  intros H. destruct (length_nonneg v) as [Hlt | Heq]; [exact Hlt |].
  exfalso. apply H, length_zero_iff. symmetry. exact Heq.
Qed.

Lemma length_scale (v : MVector) (s : R) :
  0 <= s -> length (v_scale v s) = s * length v.
Proof.
  intros Hs. unfold length.
  replace (dot (v_scale v s) (v_scale v s)) with (s * s * dot v v)
    by (unfold dot, v_scale; cbn; ring).
  rewrite sqrt_mult; [| nra | apply dot_self_nonneg].
  rewrite sqrt_square by exact Hs. reflexivity.
Qed.

Lemma length_normalize (v : MVector) :
  v <> zero_vector -> length (normalize v) = 1.
Proof.
  intros H. pose proof (length_pos v H) as Hp.
  unfold normalize. rewrite length_scale.
  - field. lra.
  - left. apply Rinv_0_lt_compat, Hp.
Qed.


Lemma normalize_scale_pos (v : MVector) (k : R) :
  0 < k -> v <> zero_vector -> normalize (v_scale v k) = normalize v.
Proof.
  intros Hk Hv. pose proof (length_pos v Hv) as Hl.
  unfold normalize. rewrite length_scale by lra.
  apply vector_eq; cbn; field; lra.
Qed.

Lemma normalize_scale_neg (v : MVector) (k : R) :
  k < 0 -> v <> zero_vector -> normalize (v_scale v k) = v_scale (normalize v) (-1).
Proof.
  intros Hk Hv. pose proof (length_pos v Hv) as Hl.
  replace (v_scale v k) with (v_scale (v_scale v (-1)) (- k))
    by (apply vector_eq; cbn; ring).
  assert (Hm : length (v_scale v (-1)) = length v).
  { unfold length. f_equal. unfold dot; cbn. ring. }
  unfold normalize. rewrite length_scale by lra. rewrite Hm.
  apply vector_eq; cbn; field; lra.
Qed.

Lemma scale_normalize_length (v : MVector) :
  v <> zero_vector -> v_scale (normalize v) (length v) = v.
Proof.
  intros Hv. pose proof (length_pos v Hv) as Hl.
  apply vector_eq; unfold normalize; cbn; field; lra.
Qed.

Lemma length_along_z (c : R) : length (mkVector 0 0 c) = Rabs c.
Proof.
  unfold length, dot; cbn.
  replace (0 * 0 + 0 * 0 + c * c) with (Rsqr c) by (unfold Rsqr; ring).
  apply sqrt_Rsqr_abs.
Qed.

(* ===================================================================== *)
(** * Python arithmetic                                                 *)
(* ===================================================================== *)

Lemma py_div_ok (a b : R) : b <> 0 -> py_div a b = Ok (a / b).
Proof. intros H. unfold py_div. destruct (Req_dec_T b 0); [contradiction | reflexivity]. Qed.

Lemma py_div_zero (a : R) : py_div a 0 = Raise ZeroDivisionError.
Proof. unfold py_div. destruct (Req_dec_T 0 0); [reflexivity | contradiction]. Qed.

Lemma py_div_int_ok (r : R) (n : Z) :
  n <> 0%Z -> py_div_int (PyFloat r) n = Ok (r / IZR n).
Proof.
  intros H. cbn. apply py_div_ok. intros E. apply H. apply eq_IZR_R0. exact E.
Qed.

(* ===================================================================== *)
(** * Projection: [worldToScreen]                                       *)
(* ===================================================================== *)

Lemma worldToScreen_behind fnCamera cameraPoint transformPoint view :
  depth fnCamera cameraPoint transformPoint < 0.01 ->
  worldToScreen fnCamera cameraPoint transformPoint view = Ok (PyNone, PyNone).
Proof.
  intros H. unfold worldToScreen. fold (depth fnCamera cameraPoint transformPoint).
  destruct (Rlt_dec _ _) as [_ | Hn]; [reflexivity | contradiction].
Qed.

Lemma worldToScreen_in_front fnCamera cameraPoint transformPoint view :
  ~ depth fnCamera cameraPoint transformPoint < 0.01 ->
  worldToScreen fnCamera cameraPoint transformPoint view =
    (nx <- py_div (px (clip view transformPoint)) (pw (clip view transformPoint)) ;;
     ny <- py_div (py (clip view transformPoint)) (pw (clip view transformPoint)) ;;
     Ok (PyFloat (((nx + 1) / 2) * IZR (portWidth view)),
         PyFloat (((ny + 1) / 2) * IZR (portHeight view)))).
Proof.
  intros H. unfold worldToScreen. fold (depth fnCamera cameraPoint transformPoint).
  destruct (Rlt_dec _ _) as [Hlt | _]; [contradiction |].
  fold (clip view transformPoint).
  destruct (py_div (px (clip view transformPoint)) (pw (clip view transformPoint)));
    reflexivity.
Qed.

(** On a target that passes the depth test and has a clip w other than 0,
    [worldToScreen] returns two floats. *)
Lemma worldToScreen_visible fnCamera cameraPoint transformPoint view :
  0.01 <= depth fnCamera cameraPoint transformPoint ->
  pw (clip view transformPoint) <> 0 ->
  worldToScreen fnCamera cameraPoint transformPoint view =
    Ok (PyFloat (((px (clip view transformPoint) / pw (clip view transformPoint) + 1) / 2)
                 * IZR (portWidth view)),
        PyFloat (((py (clip view transformPoint) / pw (clip view transformPoint) + 1) / 2)
                 * IZR (portHeight view))).
Proof.
  intros Hd Hw.
  rewrite worldToScreen_in_front by lra.
  rewrite !py_div_ok by exact Hw. reflexivity.
Qed.

(** Without the proviso on w the division raises. *)
Lemma worldToScreen_zero_w fnCamera cameraPoint transformPoint view :
  0.01 <= depth fnCamera cameraPoint transformPoint ->
  pw (clip view transformPoint) = 0 ->
  worldToScreen fnCamera cameraPoint transformPoint view = Raise ZeroDivisionError.
Proof.
  intros Hd Hw. rewrite worldToScreen_in_front by lra.
  rewrite Hw, py_div_zero. reflexivity.
Qed.

(* ===================================================================== *)
(** * Projection: [screenToWorld]                                       *)
(* ===================================================================== *)

(** On two floats and a viewport that is not empty [screenToWorld]
    returns, and what it returns is the un-projected point moved to
    [setDistance]. *)
Lemma screenToWorld_floats (x y : R) cameraPoint setDistance view :
  portWidth view <> 0%Z -> portHeight view <> 0%Z ->
  screenToWorld (PyFloat x, PyFloat y) cameraPoint setDistance view
    = Ok (at_distance (unprojected view x y) cameraPoint setDistance).
Proof.
  intros Hw Hh. unfold screenToWorld. cbn [fst snd].
  rewrite (py_div_int_ok _ _ Hw), (py_div_int_ok _ _ Hh). reflexivity.
Qed.

(** A result of [screenToWorld] is always of that form. *)
Lemma screenToWorld_inv point2D cameraPoint setDistance view p :
  screenToWorld point2D cameraPoint setDistance view = Ok p ->
  exists x y, point2D = (PyFloat x, PyFloat y)
    /\ p = at_distance (unprojected view x y) cameraPoint setDistance.
Proof.
  destruct point2D as [a b]. unfold screenToWorld. cbn [fst snd]. intros H.
  destruct a as [| x]; [discriminate H |].
  unfold py_div_int at 1 in H. unfold py_div in H.
  destruct (Req_dec_T (IZR (portWidth view)) 0); [discriminate H |].
  cbn [bind] in H.
  destruct b as [| y]; [discriminate H |].
  unfold py_div_int, py_div in H.
  destruct (Req_dec_T (IZR (portHeight view)) 0); [discriminate H |].
  cbn [bind] in H. injection H as <-.
  exists x, y. split; reflexivity.
Qed.

Lemma at_distance_offset point3D cameraPoint setDistance :
  pt_sub (at_distance point3D cameraPoint setDistance) cameraPoint
    = v_scale (normalize (pt_sub point3D cameraPoint)) setDistance.
Proof. apply vector_eq; unfold at_distance; maya_unfold; ring. Qed.




Lemma pt_sub_blend (k : R) (target eye : MPoint) :
  pt_sub (h_add (h_scale k target) (h_scale (1 - k) eye)) eye
    = v_scale (pt_sub target eye) k.
Proof. apply vector_eq; maya_unfold; ring. Qed.

Lemma at_distance_same_side (k : R) (target eye : MPoint) :
  0 < k -> pw target = 1 -> pt_sub target eye <> zero_vector ->
  at_distance (h_add (h_scale k target) (h_scale (1 - k) eye)) eye
              (distance target eye) = target.
Proof.
  intros Hk Hw Hv. unfold at_distance, distance.
  rewrite pt_sub_blend, normalize_scale_pos, scale_normalize_length by assumption.
  destruct target as [tx ty tz tw]. cbn in Hw. subst tw.
  apply point_eq; maya_unfold; ring.
Qed.

Lemma at_distance_other_side (k : R) (target eye : MPoint) :
  k < 0 -> pt_sub target eye <> zero_vector ->
  at_distance (h_add (h_scale k target) (h_scale (1 - k) eye)) eye
              (distance target eye) = mirrored target eye.
Proof.
  intros Hk Hv. unfold at_distance, distance.
  rewrite pt_sub_blend, normalize_scale_neg by assumption.
  replace (v_scale (v_scale (normalize (pt_sub target eye)) (-1))
                   (length (pt_sub target eye)))
    with (v_scale (v_scale (normalize (pt_sub target eye))
                           (length (pt_sub target eye))) (-1))
    by (apply vector_eq; cbn; ring).
  rewrite scale_normalize_length by assumption.
  apply point_eq; unfold mirrored; maya_unfold; ring.
Qed.

(** Along the z axis: the point at distance [d] from (0,0,b) toward (0,0,a). *)
Lemma at_distance_toward_minus_z (x y a b d : R) :
  a < b ->
  at_distance (mkPoint x y a) (mkPoint x y b) d = mkPoint x y (b - d).
Proof.
  intros H. unfold at_distance, normalize, pt_sub, mkPoint; cbn [px py pz].
  replace (x - x) with 0 by ring. replace (y - y) with 0 by ring.
  rewrite length_along_z, Rabs_left by lra.
  apply point_eq; cbn; try ring. field. lra.
Qed.

Lemma at_distance_toward_plus_z (x y a b d : R) :
  b < a ->
  at_distance (mkPoint x y a) (mkPoint x y b) d = mkPoint x y (b + d).
Proof.
  intros H. unfold at_distance, normalize, pt_sub, mkPoint; cbn [px py pz].
  replace (x - x) with 0 by ring. replace (y - y) with 0 by ring.
  rewrite length_along_z, Rabs_right by lra.
  apply point_eq; cbn; try ring. field. lra.
Qed.

(* ===================================================================== *)
(** * The orchestrator: [nudge]                                         *)
(* ===================================================================== *)

(** What a successful solve went through, call by call. *)
Lemma nudge_solve_ok h transformName pixelAmount view s :
  nudge_solve h transformName pixelAmount view = Ok s ->
  let eye := eyePoint (getCamera view) in
  let target := worldTranslation h transformName in
  exists x y,
    worldToScreen (getCamera view) eye target view = Ok (PyFloat x, PyFloat y)
    /\ screenToWorld (PyFloat (x + fst pixelAmount), PyFloat y) eye
         (length (pt_sub target eye)) view = Ok (xyz_x s)
    /\ screenToWorld (PyFloat x, PyFloat (y + snd pixelAmount)) eye
         (length (pt_sub target eye)) view = Ok (xyz_y s)
    /\ cameraPoint s = eye
    /\ transformPoint s = target
    /\ startDirVec s = normalize (pt_sub target eye)
    /\ pointDist s = length (pt_sub target eye).
Proof.
  intros H eye target. unfold nudge_solve in H.
  fold eye target in H.
  destruct (worldToScreen (getCamera view) eye target view) as [[x y] | e] eqn:Hw;
    cbn in H; [| discriminate H].
  destruct x as [| x]; cbn in H; [discriminate H |].
  destruct (screenToWorld (PyFloat (x + fst pixelAmount), y) eye _ view)
    as [p1 | e] eqn:H1; cbn in H; [| discriminate H].
  destruct y as [| y]; cbn in H; [discriminate H |].
  destruct (screenToWorld (PyFloat x, PyFloat (y + snd pixelAmount)) eye _ view)
    as [p2 | e] eqn:H2; cbn in H; [| discriminate H].
  injection H as <-. exists x, y. cbn. repeat split; assumption.
Qed.

(** A target that fails the depth test makes [nudge] raise before it sends
    any command. *)
Lemma nudge_solve_behind h transformName pixelAmount view :
  depth (getCamera view) (eyePoint (getCamera view))
        (worldTranslation h transformName) < 0.01 ->
  nudge_solve h transformName pixelAmount view = Raise TypeError.
Proof.
  intros H. unfold nudge_solve.
  rewrite (worldToScreen_behind _ _ _ _ H). reflexivity.
Qed.

Lemma degrees_angle_bounds (u v : MVector) :
  0 <= degrees (angle u v) <= 180.
Proof.
  unfold degrees, angle.
  pose proof (acos_bound (dot u v / (length u * length v))) as [Hlo Hhi].
  pose proof PI_RGT_0 as Hpi.
  assert (Hk : 0 < 180 / PI) by (apply Rdiv_lt_0_compat; lra).
  split.
  - apply Rmult_le_pos; lra.
  - replace 180 with (PI * (180 / PI)) at 2 by (field; lra).
    apply Rmult_le_compat_r; lra.
Qed.

(* ===================================================================== *)
(** * The argument check: [parseArgs]                                   *)
(* ===================================================================== *)

Lemma parseArgs_checks_valid h transformName view :
  valid_transform h transformName ->
  parseArgs_checks h transformName view =
    if negb (truthy view) then Ok (active3dView h)
    else if negb (type_is_M3dView view) && type_is_str view then
      match view with
      | ArgStr viewStr =>
          match getM3dViewFromModelPanel h viewStr with
          | Some v => Ok v
          | None => Raise (RuntimeError NotAModelPanel)
          end
      | _ => Raise (RuntimeError NotAView)
      end
    else Raise (RuntimeError NotAView).
Proof.
  intros (Hn & He & Ht). unfold parseArgs_checks.
  rewrite (proj2 (String.eqb_neq _ _) Hn), He, Ht. reflexivity.
Qed.

(* ===================================================================== *)
(** * The round trip in a pinhole view                                  *)
(* ===================================================================== *)

(** Maya's perspective views are pinhole views. *)
Lemma perspective_view_pinhole (view : M3dView) :
  affine (modelViewMatrix view) ->
  perspective (projectionMatrix view) ->
  camera_of_view view ->
  det (mat_mul (modelViewMatrix view) (projectionMatrix view)) <> 0 ->
  pinhole view.
Proof.
  intros (Ha0 & Ha1 & Ha2 & Ha3) (P0z & P0w & P1z & P1w & P2w & P3x & P3y & P3w)
         (Hew & Heye & Hdir) Hdet.
  unfold pinhole. cbv zeta.
  set (V := modelViewMatrix view) in *. set (P := projectionMatrix view) in *.
  set (cam := getCamera view) in *. set (eye := eyePoint cam) in *.
  assert (Hex : px (pt_mul eye V) = 0) by (rewrite Heye; reflexivity).
  assert (Hey : py (pt_mul eye V) = 0) by (rewrite Heye; reflexivity).
  assert (Hez : pz (pt_mul eye V) = 0) by (rewrite Heye; reflexivity).
  assert (Hw : forall X, pw X = 1 -> pw (pt_mul X V) = 1).
  { intros X HX. maya_unfold. rewrite Ha0, Ha1, Ha2, Ha3, HX. ring. }
  assert (Hcw : forall X, pw X = 1 ->
                  pw (pt_mul X (mat_mul V P)) = - pz (pt_mul X V)).
  { intros X HX. rewrite <- pt_mul_assoc.
    pose proof (Hw X HX) as HXw.
    generalize dependent (pt_mul X V). intros Y HY.
    maya_unfold. rewrite P0w, P1w, P2w, P3w, HY. ring. }
  assert (Hcz : forall X, pw X = 1 ->
                  pz (pt_mul X (mat_mul V P))
                  = pz (row2 P) * pz (pt_mul X V) + pz (row3 P)).
  { intros X HX. rewrite <- pt_mul_assoc.
    pose proof (Hw X HX) as HXw.
    generalize dependent (pt_mul X V). intros Y HY.
    maya_unfold. rewrite P0z, P1z, HY. ring. }
  split; [exact Hdet |]. split; [exact Hew |]. split; [| split; [| split]].
  - intros X HX. rewrite (Hcw X HX). unfold depth. rewrite Hdir.
    revert Hez. maya_unfold. rewrite HX, Hew. intros Hez.
    unfold dot; cbn [vx vy vz]. lra.
  - rewrite <- pt_mul_assoc, Heye.
    maya_unfold. rewrite P3x. ring.
  - rewrite <- pt_mul_assoc, Heye.
    maya_unfold. rewrite P3y. ring.
  - exists (- pz (row2 P)), (pz (row3 P)). intros X HX.
    rewrite (Hcz X HX), (Hcw X HX). ring.
Qed.

Lemma depth_nonzero_apart cam (eye target : MPoint) :
  depth cam eye target <> 0 -> pt_sub target eye <> zero_vector.
Proof.
  intros H E. apply H. unfold depth. rewrite E. unfold dot; cbn. ring.
Qed.

Lemma worldTranslation_w (h : Host) (transformName : string) :
  pw (worldTranslation h transformName) = 1.
Proof.
  unfold worldTranslation. destruct (xformTranslation h transformName) as [[tx ty] tz].
  reflexivity.
Qed.

Section PinholeView.

Variable view : M3dView.
Hypothesis Hpinhole : pinhole view.
Hypothesis Hwidth : portWidth view <> 0%Z.
Hypothesis Hheight : portHeight view <> 0%Z.

Let cam := getCamera view.
Let eye := eyePoint cam.

(** What a pinhole view un-projects the pixel of a visible target to: the
    point of the line through the eye and the target that lies at the depth
    of the world origin. *)
Lemma pinhole_unprojected (target : MPoint) :
  pw target = 1 ->
  depth cam eye target <> 0 ->
  let c := clip view target in
  let k := depth cam eye origin / depth cam eye target in
  unprojected view (((px c / pw c + 1) / 2) * IZR (portWidth view))
                   (((py c / pw c + 1) / 2) * IZR (portHeight view))
    = h_add (h_scale k target) (h_scale (1 - k) eye).
Proof.
  intros Htw Hd c k.
  destruct Hpinhole as (Hdet & Hew & Hdepth & Hex & Hey & (a & b & Hz)).
  assert (HWr : IZR (portWidth view) <> 0) by (intros E; apply Hwidth, eq_IZR_R0, E).
  assert (HHr : IZR (portHeight view) <> 0) by (intros E; apply Hheight, eq_IZR_R0, E).
  subst c. unfold clip.
  set (vp := mat_mul (modelViewMatrix view) (projectionMatrix view)) in *.
  fold cam in Hdepth, Hew, Hex, Hey. fold eye in Hdepth, Hew, Hex, Hey.
  assert (Hcw : pw (pt_mul target vp) = depth cam eye target) by (apply Hdepth, Htw).
  assert (How : pw origin = 1) by reflexivity.
  assert (Hw0 : pw (row3 vp) = depth cam eye origin)
    by (rewrite <- pt_mul_origin; apply Hdepth, How).
  assert (Hz0 : pz (row3 vp) = a * pw (row3 vp) + b)
    by (rewrite <- pt_mul_origin; apply Hz, How).
  assert (Hzc : pz (pt_mul target vp) = a * pw (pt_mul target vp) + b)
    by (apply Hz, Htw).
  assert (Hze : pz (pt_mul eye vp) = b).
  { rewrite (Hz eye Hew), (Hdepth eye Hew).
    unfold depth, dot, pt_sub; cbn. ring. }
  assert (Hwe : pw (pt_mul eye vp) = 0).
  { rewrite (Hdepth eye Hew). unfold depth, dot, pt_sub; cbn. ring. }
  unfold unprojected. fold vp.
  apply unproject_image; [exact Hdet |].
  rewrite pt_mul_linear.
  change (mat_get vp 3 2) with (pz (row3 vp)).
  change (mat_get vp 3 3) with (pw (row3 vp)).
  subst k.
  apply point_eq; cbn [h_add h_scale px py pz pw];
    rewrite ?Hex, ?Hey, ?Hze, ?Hwe, ?Hz0, ?Hzc, ?Hw0, ?Hcw;
    unfold ndc; field; auto.
Qed.

(** A target that passes the depth test projects to a pixel, and
    [screenToWorld] un-projects that pixel onto the line through the eye
    and the target. *)
Lemma pinhole_screen_then_world (target : MPoint) :
  pw target = 1 ->
  0.01 <= depth cam eye target ->
  exists x y,
    worldToScreen cam eye target view = Ok (PyFloat x, PyFloat y)
    /\ screenToWorld (PyFloat x, PyFloat y) eye (distance target eye) view
       = Ok (at_distance
               (h_add (h_scale (depth cam eye origin / depth cam eye target) target)
                      (h_scale (1 - depth cam eye origin / depth cam eye target) eye))
               eye (distance target eye)).
Proof.
  intros Htw Hd.
  pose proof Hpinhole as (_ & _ & Hdepth & _).
  assert (Hcw : pw (clip view target) = depth cam eye target) by (apply Hdepth, Htw).
  eexists. eexists. split.
  - apply worldToScreen_visible.
    + exact Hd.
    + rewrite Hcw. lra.
  - rewrite screenToWorld_floats by assumption.
    rewrite (pinhole_unprojected target Htw) by lra.
    reflexivity.
Qed.

(** The round trip holds when the world origin is in front of the camera. *)
Lemma pinhole_roundtrip (target : MPoint) :
  pw target = 1 ->
  0.01 <= depth cam eye target ->
  0 < depth cam eye origin ->
  exists x y,
    worldToScreen cam eye target view = Ok (PyFloat x, PyFloat y)
    /\ screenToWorld (PyFloat x, PyFloat y) eye (distance target eye) view = Ok target.
Proof.
  intros Htw Hd Ho.
  destruct (pinhole_screen_then_world target Htw Hd) as (x & y & H1 & H2).
  exists x, y. split; [exact H1 |]. rewrite H2. f_equal.
  apply at_distance_same_side.
  - apply Rdiv_lt_0_compat; lra.
  - exact Htw.
  - apply (depth_nonzero_apart cam). lra.
Qed.

(** It returns the mirror image of the target when the origin is behind. *)
Lemma pinhole_roundtrip_mirrored (target : MPoint) :
  pw target = 1 ->
  0.01 <= depth cam eye target ->
  depth cam eye origin < 0 ->
  exists x y,
    worldToScreen cam eye target view = Ok (PyFloat x, PyFloat y)
    /\ screenToWorld (PyFloat x, PyFloat y) eye (distance target eye) view
       = Ok (mirrored target eye).
Proof.
  intros Htw Hd Ho.
  destruct (pinhole_screen_then_world target Htw Hd) as (x & y & H1 & H2).
  exists x, y. split; [exact H1 |]. rewrite H2. f_equal.
  apply at_distance_other_side.
  - assert (Hi : 0 < / depth cam eye target) by (apply Rinv_0_lt_compat; lra).
    unfold Rdiv. nra.
  - apply (depth_nonzero_apart cam). lra.
Qed.

Variable h : Host.
Variable transformName : string.

Let target := worldTranslation h transformName.

Hypothesis Hvisible : 0.01 <= depth cam eye target.
Hypothesis Horigin : 0 < depth cam eye origin.

(** With the world origin in front of the camera, a zero-offset nudge of a
    visible target gets the target itself back from both screen-to-world
    calls. *)
Lemma pinhole_nudge_solve_zero_offset :
  nudge_solve h transformName (0, 0) view
    = Ok (mkSolved eye target (normalize (pt_sub target eye))
            (length (pt_sub target eye)) target target).
Proof.
  destruct (pinhole_roundtrip target (worldTranslation_w h transformName)
              Hvisible Horigin) as (x & y & H1 & H2).
  unfold nudge_solve. fold cam. fold eye. fold target. rewrite H1.
  cbn [bind py_add fst snd]. rewrite !Rplus_0_r.
  unfold distance in H2. rewrite H2. reflexivity.
Qed.

(** The commands of that nudge: the target's world position, sent twice as
    a relative move of the moved node. *)
Lemma pinhole_nudge_zero_offset (moveObject : bool) :
  let moved := if moveObject then transformName else fullPathName cam in
  nudge h transformName (0, 0) moveObject false view
    = ([ UndoOpenChunk;
         Move (px target) (py target) (pz target) moved true;
         Move (px target) (py target) (pz target) moved true;
         UndoCloseChunk ], Ok tt)
  /\ net_translation (fst (nudge h transformName (0, 0) moveObject false view)) moved
     = v_scale (MVector_of_point target) 2.
Proof.
  intros moved.
  assert (E : nudge h transformName (0, 0) moveObject false view
              = ([ UndoOpenChunk;
                   Move (px target) (py target) (pz target) moved true;
                   Move (px target) (py target) (pz target) moved true;
                   UndoCloseChunk ], Ok tt)).
  { unfold nudge. rewrite pinhole_nudge_solve_zero_offset.
    fold cam. unfold nudge_apply, offsetX, offsetY.
    cbn [xyz_x xyz_y transformPoint].
    replace (v_add (pt_sub target target) (MVector_of_point target))
      with (MVector_of_point target) by (apply vector_eq; maya_unfold; ring).
    subst moved. destruct moveObject; reflexivity. }
  split; [exact E |]. rewrite E. cbn [fst net_translation].
  rewrite String.eqb_refl. apply vector_eq; cbn; ring.
Qed.

End PinholeView.

(* ===================================================================== *)
(** * The sample session, evaluated                                     *)
(* ===================================================================== *)

Lemma demo_view_projection (ex ey ez : R) :
  mat_mul (Demo.view_matrix (ex, ey, ez)) Demo.proj
    = mkMatrix (mkPoint4 1 0 0 0) (mkPoint4 0 1 0 0) (mkPoint4 0 0 (-2) (-1))
               (mkPoint4 (- ex) (- ey) (2 * ez - 3) ez).
Proof. unfold mat_mul. f_equal; apply point_eq; maya_unfold; ring. Qed.

Lemma demo_det (ex ey ez : R) :
  det (mat_mul (Demo.view_matrix (ex, ey, ez)) Demo.proj) = -3.
Proof. rewrite demo_view_projection. cbv beta iota zeta delta [det]. ring. Qed.

(** In the sample views a pixel un-projects to the plane z = 0, the depth
    of the world origin. *)
Lemma demo_unprojected (ex ey ez x y : R) :
  unprojected (Demo.view_at (ex, ey, ez)) x y
    = mkPoint (ex + ndc x 1920 * ez) (ey + ndc y 1080 * ez) 0.
Proof.
  unfold unprojected.
  change (modelViewMatrix (Demo.view_at (ex, ey, ez))) with (Demo.view_matrix (ex, ey, ez)).
  change (projectionMatrix (Demo.view_at (ex, ey, ez))) with Demo.proj.
  apply unproject_image.
  - rewrite demo_det. lra.
  - rewrite demo_view_projection. apply point_eq; maya_unfold; ring.
Qed.

Lemma demo_pinhole (ex ey ez : R) : pinhole (Demo.view_at (ex, ey, ez)).
Proof.
  apply perspective_view_pinhole.
  - repeat split; cbn; ring.
  - repeat split; cbn; ring.
  - repeat split; cbn; try ring.
    + apply point_eq; maya_unfold; ring.
    + apply vector_eq; cbn; ring.
  - change (modelViewMatrix (Demo.view_at (ex, ey, ez))) with (Demo.view_matrix (ex, ey, ez)).
    change (projectionMatrix (Demo.view_at (ex, ey, ez))) with Demo.proj.
    rewrite demo_det. lra.
Qed.

Lemma demo_worldToScreen (ex ey ez tx ty tz : R) :
  0.01 <= ez - tz ->
  worldToScreen (Demo.camera (ex, ey, ez)) (mkPoint ex ey ez) (mkPoint tx ty tz)
                (Demo.view_at (ex, ey, ez))
    = Ok (PyFloat ((((tx - ex) / (ez - tz) + 1) / 2) * 1920),
          PyFloat ((((ty - ey) / (ez - tz) + 1) / 2) * 1080)).
Proof.
  intros H.
  rewrite worldToScreen_visible.
  - unfold clip.
    change (modelViewMatrix (Demo.view_at (ex, ey, ez))) with (Demo.view_matrix (ex, ey, ez)).
    change (projectionMatrix (Demo.view_at (ex, ey, ez))) with Demo.proj.
    rewrite demo_view_projection. maya_unfold.
    f_equal. f_equal; f_equal; field; lra.
  - unfold depth. maya_unfold. lra.
  - unfold clip.
    change (modelViewMatrix (Demo.view_at (ex, ey, ez))) with (Demo.view_matrix (ex, ey, ez)).
    change (projectionMatrix (Demo.view_at (ex, ey, ez))) with Demo.proj.
    rewrite demo_view_projection. maya_unfold. lra.
Qed.

Lemma demo_length_ahead (ex ey ez tz : R) :
  tz <= ez ->
  length (pt_sub (mkPoint ex ey tz) (mkPoint ex ey ez)) = ez - tz.
Proof.
  intros H. unfold pt_sub, mkPoint; cbn [px py pz].
  replace (ex - ex) with 0 by ring. replace (ey - ey) with 0 by ring.
  rewrite length_along_z, Rabs_left1 by lra. ring.
Qed.

(** A target straight ahead of the sample camera, nudged by (0, 0): both
    screen-to-world calls return the point [back]. *)
Lemma demo_nudge_solve_ahead (ex ey ez tz : R) (back : MPoint) :
  0.01 <= ez - tz ->
  at_distance (mkPoint ex ey 0) (mkPoint ex ey ez) (ez - tz) = back ->
  nudge_solve (Demo.host (Demo.view_at (ex, ey, ez)) (ex, ey, tz)) "pSphere1" (0, 0)
              (Demo.view_at (ex, ey, ez))
    = Ok (mkSolved (mkPoint ex ey ez) (mkPoint ex ey tz)
            (normalize (pt_sub (mkPoint ex ey tz) (mkPoint ex ey ez)))
            (ez - tz) back back).
Proof.
  intros H Hb. unfold nudge_solve.
  change (getCamera (Demo.view_at (ex, ey, ez))) with (Demo.camera (ex, ey, ez)).
  change (eyePoint (Demo.camera (ex, ey, ez))) with (mkPoint ex ey ez).
  change (worldTranslation _ "pSphere1") with (mkPoint ex ey tz).
  rewrite (demo_worldToScreen ex ey ez ex ey tz H).
  rewrite demo_length_ahead by lra.
  cbn [bind py_add fst snd].
  rewrite !screenToWorld_floats by (cbn; discriminate).
  rewrite !demo_unprojected.
  assert (Ex : ndc ((((ex - ex) / (ez - tz) + 1) / 2) * 1920 + 0) 1920 = 0)
    by (unfold ndc; field; lra).
  assert (Ey : ndc ((((ey - ey) / (ez - tz) + 1) / 2) * 1080 + 0) 1080 = 0)
    by (unfold ndc; field; lra).
  assert (Ex' : ndc ((((ex - ex) / (ez - tz) + 1) / 2) * 1920) 1920 = 0)
    by (unfold ndc; field; lra).
  assert (Ey' : ndc ((((ey - ey) / (ez - tz) + 1) / 2) * 1080) 1080 = 0)
    by (unfold ndc; field; lra).
  rewrite Ex, Ey, Ex', Ey'.
  replace (ex + 0 * ez) with ex by ring. replace (ey + 0 * ez) with ey by ring.
  rewrite Hb. reflexivity.
Qed.

Lemma demo_back_in_front (ex ey ez tz : R) :
  0 < ez ->
  at_distance (mkPoint ex ey 0) (mkPoint ex ey ez) (ez - tz) = mkPoint ex ey tz.
Proof.
  intros H. rewrite at_distance_toward_minus_z by exact H.
  apply point_eq; cbn; ring.
Qed.

Lemma demo_back_behind (ex ey ez tz : R) :
  ez < 0 ->
  at_distance (mkPoint ex ey 0) (mkPoint ex ey ez) (ez - tz)
    = mkPoint ex ey (2 * ez - tz).
Proof.
  intros H. rewrite at_distance_toward_plus_z by exact H.
  apply point_eq; cbn; ring.
Qed.


(* ===================================================================== *)
(** * The properties of the specification                               *)
(* ===================================================================== *)

(** C1, at a camera that stands between the world origin and the target:
    camera at (0,0,-5) looking toward -z, target at (0,0,-7), depth 2.  The
    target projects to the centre pixel, and the centre pixel at the
    target's distance converts to (0,0,-3): the point at that distance
    behind the camera, not the target. *)
Theorem roundtrip_fails_origin_behind_camera :
  let eye := mkPoint 0 0 (-5) in
  let target := mkPoint 0 0 (-7) in
  let view := Demo.view_at (0, 0, -5) in
  0.01 <= depth (getCamera view) eye target
  /\ worldToScreen (getCamera view) eye target view = Ok (PyFloat 960, PyFloat 540)
  /\ screenToWorld (PyFloat 960, PyFloat 540) eye (distance target eye) view
     = Ok (mkPoint 0 0 (-3))
  /\ mkPoint 0 0 (-3) <> target.
Proof.
  cbv zeta. split; [| split; [| split]].
  - unfold depth. maya_unfold. lra.
  - change (getCamera (Demo.view_at (0, 0, -5))) with (Demo.camera (0, 0, -5)).
    rewrite demo_worldToScreen by lra.
    f_equal. f_equal; f_equal; field.
  - rewrite screenToWorld_floats by (cbn; discriminate).
    rewrite demo_unprojected. unfold distance.
    rewrite demo_length_ahead by lra.
    replace (0 + ndc 960 1920 * -5) with 0 by (unfold ndc; field).
    replace (0 + ndc 540 1080 * -5) with 0 by (unfold ndc; field).
    rewrite demo_back_behind by lra.
    f_equal. apply point_eq; cbn; ring.
  - intros E. apply (f_equal pz) in E. cbn in E. lra.
Qed.




(** C3, at a target off the world origin: camera at (0,0,10), target at
    (0,0,3).  With pixel offset (0,0) both screen-to-world calls return the
    target itself, and its coordinates are sent as two relative moves: the
    moved node, camera or object, is translated by (0,0,6). *)
Theorem nudge_zero_offset_translates :
  let view := Demo.view in
  let h := Demo.host view (0, 0, 3) in
  let camera := fullPathName (getCamera view) in
  nudge h "pSphere1" (0, 0) false false view
    = ([UndoOpenChunk; Move 0 0 3 camera true; Move 0 0 3 camera true;
        UndoCloseChunk], Ok tt)
  /\ net_translation (fst (nudge h "pSphere1" (0, 0) false false view)) camera
     = mkVector 0 0 6
  /\ net_translation (fst (nudge h "pSphere1" (0, 0) true false view)) "pSphere1"
     = mkVector 0 0 6
  /\ mkVector 0 0 6 <> zero_vector.
Proof.
  cbv zeta.
  assert (Hs : nudge_solve (Demo.host Demo.view (0, 0, 3)) "pSphere1" (0, 0) Demo.view
               = Ok (mkSolved (mkPoint 0 0 10) (mkPoint 0 0 3)
                       (normalize (pt_sub (mkPoint 0 0 3) (mkPoint 0 0 10)))
                       (10 - 3) (mkPoint 0 0 3) (mkPoint 0 0 3))).
  { apply (demo_nudge_solve_ahead 0 0 10 3); [lra |].
    apply demo_back_in_front. lra. }
  assert (Hx : forall s, xyz_x s = mkPoint 0 0 3 -> transformPoint s = mkPoint 0 0 3 ->
                 offsetX s = mkVector 0 0 3).
  { intros s E1 E2. unfold offsetX. rewrite E1, E2.
    apply vector_eq; maya_unfold; ring. }
  assert (Hy : forall s, xyz_y s = mkPoint 0 0 3 -> transformPoint s = mkPoint 0 0 3 ->
                 offsetY s = mkVector 0 0 3).
  { intros s E1 E2. unfold offsetY. rewrite E1, E2.
    apply vector_eq; maya_unfold; ring. }
  unfold nudge. rewrite Hs. unfold nudge_apply.
  rewrite Hx, Hy by reflexivity. cbn [vx vy vz app fst].
  split; [reflexivity |]. split; [| split].
  - cbn. apply vector_eq; cbn; ring.
  - cbn. apply vector_eq; cbn; ring.
  - intros E. apply (f_equal vz) in E. cbn in E. lra.
Qed.

(** C4. [worldToScreen] returns the tuple (None, None) if and only if the
    depth of the target, the dot product of (targetPoint - cameraPoint) with
    the camera's view direction, is below 0.01; the tuple is a returned
    value, not a raised error. *)
Theorem worldToScreen_sentinel_iff fnCamera cameraPoint transformPoint view :
  worldToScreen fnCamera cameraPoint transformPoint view = Ok (PyNone, PyNone)
  <-> dot (pt_sub transformPoint cameraPoint) (viewDirection fnCamera) < 0.01.
Proof.
  fold (depth fnCamera cameraPoint transformPoint). split.
  - intros H.
    destruct (Rlt_dec (depth fnCamera cameraPoint transformPoint) 0.01) as [Hlt | Hge];
      [exact Hlt | exfalso].
    rewrite (worldToScreen_in_front _ _ _ _ Hge) in H.
    unfold py_div, bind in H.
    destruct (Req_dec_T (pw (clip view transformPoint)) 0); discriminate H.
  - apply worldToScreen_behind.
Qed.



(** C6. For a target behind the camera (depth below 0), [nudge] sends no
    command at all, and it does not return: it raises [TypeError] at
    [x + pixelAmount[0]], with [x] the None of [worldToScreen]. *)
Theorem nudge_behind_camera_raises h transformName pixelAmount moveObject rotateView view :
  depth (getCamera view) (eyePoint (getCamera view))
        (worldTranslation h transformName) < 0 ->
  nudge h transformName pixelAmount moveObject rotateView view
    = ([], Raise TypeError).
Proof.
  intros H. unfold nudge.
  rewrite nudge_solve_behind by lra. reflexivity.
Qed.

Lemma nudge_behind_camera_raises_witness :
  depth (getCamera Demo.view) (eyePoint (getCamera Demo.view))
        (worldTranslation (Demo.host Demo.view (0, 0, 20)) "pSphere1") < 0
  /\ nudge (Demo.host Demo.view (0, 0, 20)) "pSphere1" (10, 10) false true Demo.view
       = ([], Raise TypeError).
Proof.
  split.
  - unfold depth. maya_unfold. lra.
  - apply (nudge_behind_camera_raises (Demo.host Demo.view (0, 0, 20))).
    unfold depth. maya_unfold. lra.
Defined.




(** C9. A camera-mode nudge with [rotateView] (and without [moveObject])
    rotates the camera once, relatively and in its object space, by
    (angleY, angleX, 0): angleX is the angle in degrees between the initial
    camera-to-target direction and the camera-to-pointAtDx direction, taken
    positive, and angleY is the angle to the camera-to-pointAtDy direction,
    negated. *)
Theorem nudge_rotation_convention h transformName pixelAmount view s :
  nudge_solve h transformName pixelAmount view = Ok s ->
  let camera := fullPathName (getCamera view) in
  let eye := eyePoint (getCamera view) in
  let startDir := normalize (pt_sub (worldTranslation h transformName) eye) in
  let aX := degrees (angle startDir (normalize (pt_sub (xyz_x s) eye))) in
  let aY := degrees (angle startDir (normalize (pt_sub (xyz_y s) eye))) in
  nudge h transformName pixelAmount false true view =
    ([ UndoOpenChunk;
       Move (vx (offsetX s)) (vy (offsetX s)) (vz (offsetX s)) camera true;
       Move (vx (offsetY s)) (vy (offsetY s)) (vz (offsetY s)) camera true;
       Rotate (- aY) aX 0 camera true true;
       UndoCloseChunk ], Ok tt)
  /\ 0 <= aX <= 180 /\ 0 <= aY <= 180.
Proof.
  intros H camera eye startDir aX aY.
  destruct (nudge_solve_ok _ _ _ _ _ H)
    as (x & y & _ & _ & _ & Hc & _ & Hs & _).
  split; [| split; apply degrees_angle_bounds].
  unfold nudge. rewrite H. unfold nudge_apply, angleX, angleY. cbn [app].
  rewrite Hc, Hs. reflexivity.
Qed.

Lemma nudge_rotation_convention_witness :
  exists s,
    nudge_solve (Demo.host Demo.view (0, 0, 0)) "pSphere1" (0, 0) Demo.view = Ok s
    /\ snd (nudge (Demo.host Demo.view (0, 0, 0)) "pSphere1" (0, 0) false true Demo.view)
       = Ok tt.
Proof.
  exists (mkSolved (mkPoint 0 0 10) (mkPoint 0 0 0)
            (normalize (pt_sub (mkPoint 0 0 0) (mkPoint 0 0 10)))
            (10 - 0) (mkPoint 0 0 0) (mkPoint 0 0 0)).
  assert (Hs : nudge_solve (Demo.host Demo.view (0, 0, 0)) "pSphere1" (0, 0) Demo.view
               = Ok (mkSolved (mkPoint 0 0 10) (mkPoint 0 0 0)
                       (normalize (pt_sub (mkPoint 0 0 0) (mkPoint 0 0 10)))
                       (10 - 0) (mkPoint 0 0 0) (mkPoint 0 0 0))).
  { apply (demo_nudge_solve_ahead 0 0 10 0); [lra |].
    apply demo_back_in_front. lra. }
  split; [exact Hs |].
  rewrite (proj1 (nudge_rotation_convention _ _ _ _ _ Hs)). reflexivity.
Defined.




(* ===================================================================== *)
(** * The sample session, further evaluated                              *)
(* ===================================================================== *)

Lemma demo_view_pinhole : pinhole Demo.view.
Proof. exact (demo_pinhole 0 0 10). Qed.

Lemma demo_origin_pixel :
  worldToScreen (getCamera Demo.view) (eyePoint (getCamera Demo.view)) origin Demo.view
    = Ok (PyFloat 960, PyFloat 540).
Proof.
  change (getCamera Demo.view) with (Demo.camera (0, 0, 10)).
  change (eyePoint (Demo.camera (0, 0, 10))) with (mkPoint 0 0 10).
  change origin with (mkPoint 0 0 0). unfold Demo.view.
  rewrite demo_worldToScreen by lra.
  f_equal. f_equal; f_equal; field.
Qed.

(** The centre pixel converts to the point straight ahead. *)
Lemma demo_screenToWorld_centre (d : R) :
  screenToWorld (PyFloat 960, PyFloat 540) (mkPoint 0 0 10) d Demo.view
    = Ok (mkPoint 0 0 (10 - d)).
Proof.
  rewrite screenToWorld_floats by (cbn; discriminate).
  unfold Demo.view. rewrite demo_unprojected.
  replace (0 + ndc 960 1920 * 10) with 0 by (unfold ndc; field).
  replace (0 + ndc 540 1080 * 10) with 0 by (unfold ndc; field).
  rewrite at_distance_toward_minus_z by lra. reflexivity.
Qed.

Lemma demo_solve_ahead :
  nudge_solve (Demo.host Demo.view (0, 0, 3)) "pSphere1" (0, 0) Demo.view
    = Ok (mkSolved (mkPoint 0 0 10) (mkPoint 0 0 3)
            (normalize (pt_sub (mkPoint 0 0 3) (mkPoint 0 0 10)))
            (10 - 3) (mkPoint 0 0 3) (mkPoint 0 0 3)).
Proof.
  apply (demo_nudge_solve_ahead 0 0 10 3); [lra |].
  apply demo_back_in_front. lra.
Qed.

(** Half the viewport to the right of the centre: the pixel at the right
    edge, whose ray leaves the eye at 45 degrees. *)
Lemma demo_right_edge_depth :
  0.01 <= depth (getCamera Demo.view) (eyePoint (getCamera Demo.view))
            (at_distance (unprojected Demo.view (960 + 960) (540 + 0))
               (eyePoint (getCamera Demo.view))
               (length (pt_sub origin (eyePoint (getCamera Demo.view))))).
Proof.
  change (getCamera Demo.view) with (Demo.camera (0, 0, 10)).
  change (eyePoint (Demo.camera (0, 0, 10))) with (mkPoint 0 0 10).
  unfold Demo.view. rewrite demo_unprojected.
  replace (0 + ndc (960 + 960) 1920 * 10) with 10 by (unfold ndc; field).
  replace (0 + ndc (540 + 0) 1080 * 10) with 0 by (unfold ndc; field).
  change origin with (mkPoint 0 0 0).
  rewrite (demo_length_ahead 0 0 10 0) by lra.
  unfold depth. rewrite at_distance_offset.
  set (v := pt_sub (mkPoint 10 0 0) (mkPoint 0 0 10)).
  assert (Hv : v <> zero_vector).
  { intros E. apply (f_equal vx) in E. cbn in E. lra. }
  pose proof (length_pos v Hv) as Hl.
  pose proof (length_sqr v) as Hs.
  replace (dot v v) with 200 in Hs by (unfold v, dot; cbn; ring).
  assert (Hi : 0 < / length v) by (apply Rinv_0_lt_compat, Hl).
  assert (E : length v * / length v = 1) by (apply Rinv_r; lra).
  unfold normalize, dot. cbn [v_scale vx vy vz viewDirection Demo.camera].
  replace (vz v) with (-10) by (unfold v; cbn; ring).
  nra.
Qed.

(* ===================================================================== *)
(** * Screen to world and back                                            *)
(* ===================================================================== *)

Lemma mat_mul_inverse_l (m : MMatrix) :
  det m <> 0 -> mat_mul (inverse m) m = identity.
Proof.
  intros H.
  destruct m as [[a00 a01 a02 a03] [a10 a11 a12 a13]
                 [a20 a21 a22 a23] [a30 a31 a32 a33]].
  unfold mat_mul, inverse, identity, pt_mul, h_add, h_scale.
  unfold det in *. cbn in *.
  f_equal; f_equal; field; exact H.
Qed.

(** Projecting an un-projected point gives the point back. *)
Lemma project_unprojected (m : MMatrix) (p : MPoint) :
  det m <> 0 -> pt_mul (pt_mul p (inverse m)) m = p.
Proof.
  intros Hd. rewrite pt_mul_assoc, (mat_mul_inverse_l m Hd). apply pt_mul_identity.
Qed.

(** An invertible matrix sends no point other than (0,0,0,0) there. *)
Lemma pt_mul_kernel (m : MMatrix) (p : MPoint) :
  det m <> 0 -> pt_mul p m = mkPoint4 0 0 0 0 -> p = mkPoint4 0 0 0 0.
Proof.
  intros Hd H.
  rewrite <- (unproject_image m (pt_mul p m) p Hd eq_refl), H.
  apply point_eq; maya_unfold; ring.
Qed.

Section PinholeScreen.

Variable view : M3dView.
Hypothesis Hpinhole : pinhole view.
Hypothesis Hwidth : portWidth view <> 0%Z.
Hypothesis Hheight : portHeight view <> 0%Z.

Let cam := getCamera view.
Let eye := eyePoint cam.
Let vp := mat_mul (modelViewMatrix view) (projectionMatrix view).

(** The eye goes to the clip z axis, and not to its origin. *)
Lemma pinhole_eye_clip :
  px (pt_mul eye vp) = 0 /\ py (pt_mul eye vp) = 0 /\ pw (pt_mul eye vp) = 0
  /\ pz (pt_mul eye vp) <> 0.
Proof.
  destruct Hpinhole as (Hdet & Hew & Hdepth & Hex & Hey & _).
  fold cam in Hew, Hdepth, Hex, Hey. fold eye in Hew, Hdepth, Hex, Hey.
  fold vp in Hdet, Hdepth, Hex, Hey.
  assert (Hw : pw (pt_mul eye vp) = 0).
  { rewrite (Hdepth eye Hew). unfold depth, dot, pt_sub; cbn. ring. }
  repeat split; try assumption.
  intros Hz.
  assert (E : eye = mkPoint4 0 0 0 0).
  { apply (pt_mul_kernel vp); [exact Hdet |].
    apply point_eq; cbn; assumption. }
  rewrite E in Hew. cbn in Hew. lra.
Qed.

(** What a pixel un-projects to projects to clip coordinates with the z and
    w of the world origin. *)
Lemma unprojected_clip (x y : R) :
  pt_mul (unprojected view x y) vp
    = mkPoint4 (ndc x (portWidth view) * pw (row3 vp))
               (ndc y (portHeight view) * pw (row3 vp))
               (pz (row3 vp)) (pw (row3 vp)).
Proof.
  destruct Hpinhole as (Hdet & _). fold vp in Hdet.
  unfold unprojected. fold vp. apply project_unprojected. exact Hdet.
Qed.

(** A pixel un-projects to a cartesian point. *)
Lemma pinhole_unprojected_w (x y : R) : pw (unprojected view x y) = 1.
Proof.
  pose proof pinhole_eye_clip as (_ & _ & Hwe & Hze).
  destruct Hpinhole as (Hdet & Hew & Hdepth & _ & _ & (a & b & Hz)).
  fold cam in Hew, Hdepth. fold eye in Hew, Hdepth. fold vp in Hdet, Hdepth, Hz.
  set (q := unprojected view x y).
  assert (Hb : pz (pt_mul eye vp) = b).
  { rewrite (Hz eye Hew), Hwe. ring. }
  assert (Ho : pz (row3 vp) = a * pw (row3 vp) + b).
  { rewrite <- pt_mul_origin. apply Hz. reflexivity. }
  set (q1 := mkPoint (px q) (py q) (pz q)).
  assert (E : q1 = h_add (h_scale 1 q) (h_scale (1 - pw q) origin)).
  { apply point_eq; unfold q1, origin; maya_unfold; ring. }
  assert (H1 : pz (pt_mul q1 vp) = a * pw (pt_mul q1 vp) + b)
    by (apply Hz; reflexivity).
  rewrite E, pt_mul_linear, pt_mul_origin in H1.
  unfold q in H1. rewrite unprojected_clip in H1.
  cbn [h_add h_scale px py pz pw] in H1. fold q in H1.
  assert (Hk : (1 - pw q) * b = 0) by nra.
  apply Rmult_integral in Hk. destruct Hk as [Hk | Hk]; [lra |].
  exfalso. apply Hze. rewrite Hb. exact Hk.
Qed.

(** The point [screenToWorld] returns, as a blend of the eye and the
    un-projected point. *)
Lemma at_distance_blend (q : MPoint) (d : R) :
  pw q = 1 ->
  let t := d / length (pt_sub q eye) in
  at_distance q eye d = h_add (h_scale (1 - t) eye) (h_scale t q).
Proof.
  intros Hq t. subst t.
  destruct Hpinhole as (_ & Hew & _). fold cam in Hew. fold eye in Hew.
  apply point_eq; unfold at_distance, normalize; maya_unfold;
    rewrite ?Hq, ?Hew; unfold Rdiv; ring.
Qed.

(** Its clip coordinates: those of the pixel, scaled. *)
Lemma at_distance_clip (x y d : R) :
  let q := unprojected view x y in
  let t := d / length (pt_sub q eye) in
  let c := pt_mul (at_distance q eye d) vp in
  px c = t * (ndc x (portWidth view) * pw (row3 vp))
  /\ py c = t * (ndc y (portHeight view) * pw (row3 vp))
  /\ pw c = t * pw (row3 vp).
Proof.
  intros q t c. subst c.
  pose proof pinhole_eye_clip as (Hxe & Hye & Hwe & _).
  rewrite (at_distance_blend q d (pinhole_unprojected_w x y)).
  fold t. rewrite pt_mul_linear. unfold q. rewrite unprojected_clip.
  cbn [h_add h_scale px py pz pw]. rewrite Hxe, Hye, Hwe.
  repeat split; ring.
Qed.

(** A pixel converted to world and projected again is the same pixel, as
    long as the world point passes the depth test. *)
Lemma pinhole_world_then_screen (x y d : R) :
  let p := at_distance (unprojected view x y) eye d in
  0.01 <= depth cam eye p ->
  worldToScreen cam eye p view = Ok (PyFloat x, PyFloat y).
Proof.
  intros p Hd.
  set (t := d / length (pt_sub (unprojected view x y) eye)).
  assert (Hx : px (clip view p) = t * (ndc x (portWidth view) * pw (row3 vp)))
    by apply (at_distance_clip x y d).
  assert (Hy : py (clip view p) = t * (ndc y (portHeight view) * pw (row3 vp)))
    by apply (at_distance_clip x y d).
  assert (Hw : pw (clip view p) = t * pw (row3 vp))
    by apply (at_distance_clip x y d).
  pose proof Hpinhole as (_ & _ & Hdepth & _).
  assert (Hcw : pw (clip view p) = depth cam eye p) by (apply Hdepth; reflexivity).
  assert (HWr : IZR (portWidth view) <> 0) by (intros E; apply Hwidth, eq_IZR_R0, E).
  assert (HHr : IZR (portHeight view) <> 0) by (intros E; apply Hheight, eq_IZR_R0, E).
  assert (Hne : t * pw (row3 vp) <> 0) by (rewrite <- Hw, Hcw; lra).
  assert (Ht : t <> 0) by (intros E; apply Hne; rewrite E; ring).
  assert (Hw0 : pw (row3 vp) <> 0) by (intros E; apply Hne; rewrite E; ring).
  rewrite worldToScreen_visible; [| exact Hd | rewrite Hw; exact Hne].
  rewrite Hx, Hy, Hw. unfold ndc.
  f_equal. f_equal; f_equal; field; repeat split; assumption.
Qed.

(** Two points on one ray from the eye project to one pixel. *)
Lemma pinhole_same_ray (target : MPoint) (k : R) :
  pw target = 1 ->
  let further := h_add (h_scale k target) (h_scale (1 - k) eye) in
  0.01 <= depth cam eye target ->
  0.01 <= depth cam eye further ->
  worldToScreen cam eye further view = worldToScreen cam eye target view.
Proof.
  intros Htw further Hd Hd'.
  pose proof pinhole_eye_clip as (Hxe & Hye & Hwe & _).
  pose proof Hpinhole as (_ & Hew & Hdepth & _).
  fold cam in Hew, Hdepth. fold eye in Hew, Hdepth. fold vp in Hdepth.
  assert (Hfw : pw further = 1).
  { unfold further. cbn [h_add h_scale pw]. rewrite Htw, Hew. ring. }
  assert (Hcw : pw (clip view target) = depth cam eye target) by (apply Hdepth, Htw).
  assert (Hcw' : pw (clip view further) = depth cam eye further) by (apply Hdepth, Hfw).
  assert (E : clip view further
              = h_add (h_scale k (clip view target)) (h_scale (1 - k) (pt_mul eye vp))).
  { unfold clip, further. fold vp. apply pt_mul_linear. }
  assert (Hk : pw (clip view further) = k * pw (clip view target)).
  { rewrite E. cbn [h_add h_scale pw]. rewrite Hwe. ring. }
  assert (Hkne : k <> 0).
  { intros K. rewrite K in Hk. rewrite Hcw' in Hk. lra. }
  rewrite !worldToScreen_visible by (try assumption; lra).
  rewrite E. cbn [h_add h_scale px py pw]. rewrite Hxe, Hye, Hwe.
  f_equal. f_equal; f_equal; field; split; try assumption; lra.
Qed.

End PinholeScreen.

(* ===================================================================== *)
(** * How the calls end                                                   *)
(* ===================================================================== *)

Lemma py_div_int_zero (r : R) : py_div_int (PyFloat r) 0 = Raise ZeroDivisionError.
Proof. cbn. apply py_div_zero. Qed.

Lemma screenToWorld_none_x (b : PyVal) cam d view :
  screenToWorld (PyNone, b) cam d view = Raise TypeError.
Proof. reflexivity. Qed.

Lemma screenToWorld_zero_width (x : R) (b : PyVal) cam d view :
  portWidth view = 0%Z ->
  screenToWorld (PyFloat x, b) cam d view = Raise ZeroDivisionError.
Proof.
  intros H. unfold screenToWorld. cbn [fst snd]. rewrite H, py_div_int_zero.
  reflexivity.
Qed.

Lemma screenToWorld_none_y (x : R) cam d view :
  portWidth view <> 0%Z ->
  screenToWorld (PyFloat x, PyNone) cam d view = Raise TypeError.
Proof.
  intros H. unfold screenToWorld. cbn [fst snd]. rewrite (py_div_int_ok _ _ H).
  reflexivity.
Qed.

Lemma screenToWorld_zero_height (x y : R) cam d view :
  portWidth view <> 0%Z -> portHeight view = 0%Z ->
  screenToWorld (PyFloat x, PyFloat y) cam d view = Raise ZeroDivisionError.
Proof.
  intros Hw Hh. unfold screenToWorld. cbn [fst snd].
  rewrite (py_div_int_ok _ _ Hw). cbn [bind]. rewrite Hh, py_div_int_zero.
  reflexivity.
Qed.

(** X6.  [worldToScreen] ends in one of three ways, decided by the depth
    and the clip w of the target: the pair (None, None) below depth 0.01;
    [ZeroDivisionError] at depth 0.01 or more with w = 0; two floats
    otherwise.  The pair is never half None, and no other error is raised. *)
Theorem worldToScreen_outcome fnCamera camPoint target view :
  let d := depth fnCamera camPoint target in
  let w := pw (clip view target) in
  (d < 0.01
   /\ worldToScreen fnCamera camPoint target view = Ok (PyNone, PyNone))
  \/ (0.01 <= d /\ w = 0
      /\ worldToScreen fnCamera camPoint target view = Raise ZeroDivisionError)
  \/ (0.01 <= d /\ w <> 0
      /\ exists x y,
           worldToScreen fnCamera camPoint target view = Ok (PyFloat x, PyFloat y)).
Proof.
  intros d w. subst d w.
  destruct (Rlt_dec (depth fnCamera camPoint target) 0.01) as [Hlt | Hge].
  - left. split; [exact Hlt |]. apply worldToScreen_behind, Hlt.
  - right. assert (Hd : 0.01 <= depth fnCamera camPoint target) by lra.
    destruct (Req_dec_T (pw (clip view target)) 0) as [Hw | Hw].
    + left. repeat split; try assumption. apply worldToScreen_zero_w; assumption.
    + right. repeat split; try assumption.
      eexists. eexists. apply worldToScreen_visible; assumption.
Qed.

(** X7.  [screenToWorld] returns a point exactly when both pixel
    coordinates are floats and the viewport has a width and a height other
    than 0.  It raises [TypeError] exactly when the x coordinate is None,
    or the width is not 0 and the y coordinate is None; every other failure
    is a [ZeroDivisionError]. *)
Theorem screenToWorld_outcome point2D camPoint setDistance view :
  let run := screenToWorld point2D camPoint setDistance view in
  ((exists p, run = Ok p)
     <-> (exists x y, point2D = (PyFloat x, PyFloat y))
         /\ portWidth view <> 0%Z /\ portHeight view <> 0%Z)
  /\ (run = Raise TypeError
        <-> fst point2D = PyNone
            \/ (portWidth view <> 0%Z /\ snd point2D = PyNone))
  /\ ((forall p, run <> Ok p) -> run <> Raise TypeError ->
        run = Raise ZeroDivisionError).
Proof.
  intros run. subst run. destruct point2D as [a b].
  destruct a as [| x].
  { rewrite screenToWorld_none_x. cbn [fst snd]. split; [| split].
    - split.
      + intros (p & H). discriminate H.
      + intros ((x & y & H) & _). discriminate H.
    - split; [intros _; left; reflexivity | reflexivity].
    - intros _ H. exfalso. apply H. reflexivity. }
  destruct (Z.eq_dec (portWidth view) 0) as [Hw | Hw].
  { rewrite (screenToWorld_zero_width _ _ _ _ _ Hw). cbn [fst snd].
    split; [| split].
    - split.
      + intros (p & H). discriminate H.
      + intros (_ & H & _). contradiction.
    - split.
      + intros H. discriminate H.
      + intros [H | [H _]]; [discriminate H | contradiction].
    - reflexivity. }
  destruct b as [| y].
  { rewrite (screenToWorld_none_y _ _ _ _ Hw). cbn [fst snd].
    split; [| split].
    - split.
      + intros (p & H). discriminate H.
      + intros ((x' & y' & H) & _). discriminate H.
    - split; [intros _; right; split; [exact Hw | reflexivity] | reflexivity].
    - intros _ H. exfalso. apply H. reflexivity. }
  destruct (Z.eq_dec (portHeight view) 0) as [Hh | Hh].
  { rewrite (screenToWorld_zero_height _ _ _ _ _ Hw Hh). cbn [fst snd].
    split; [| split].
    - split.
      + intros (p & H). discriminate H.
      + intros (_ & _ & H). contradiction.
    - split.
      + intros H. discriminate H.
      + intros [H | [_ H]]; discriminate H.
    - reflexivity. }
  rewrite (screenToWorld_floats _ _ _ _ _ Hw Hh). cbn [fst snd].
  split; [| split].
  - split.
    + intros _. split; [exists x, y; reflexivity | split; assumption].
    + intros _. eexists. reflexivity.
  - split.
    + intros H. discriminate H.
    + intros [H | [_ H]]; discriminate H.
  - intros H. exfalso. apply (H _ eq_refl).
Qed.





(* ===================================================================== *)
(** * The commands of a nudge                                             *)
(* ===================================================================== *)

Lemma nudge_returns h transformName pixelAmount moveObject rotateView view s :
  nudge_solve h transformName pixelAmount view = Ok s ->
  nudge h transformName pixelAmount moveObject rotateView view
    = (nudge_apply s transformName (fullPathName (getCamera view))
         moveObject rotateView, Ok tt).
Proof. intros H. unfold nudge. rewrite H. reflexivity. Qed.

Lemma nudge_returns_ahead (moveObject rotateView : bool) :
  snd (nudge (Demo.host Demo.view (0, 0, 3)) "pSphere1" (0, 0) moveObject rotateView
         Demo.view) = Ok tt.
Proof. rewrite (nudge_returns _ _ _ _ _ _ _ demo_solve_ahead). reflexivity. Qed.

Lemma nudge_ended h transformName pixelAmount moveObject rotateView view :
  (exists s, nudge_solve h transformName pixelAmount view = Ok s
             /\ nudge h transformName pixelAmount moveObject rotateView view
                = (nudge_apply s transformName (fullPathName (getCamera view))
                     moveObject rotateView, Ok tt))
  \/ (exists e, nudge_solve h transformName pixelAmount view = Raise e
                /\ nudge h transformName pixelAmount moveObject rotateView view
                   = ([], Raise e)).
Proof.
  unfold nudge.
  destruct (nudge_solve h transformName pixelAmount view) as [s | e].
  - left. exists s. split; reflexivity.
  - right. exists e. split; reflexivity.
Qed.


(** X11.  A call of [nudge] that returns has sent exactly two moves; it
    has sent one rotation when [rotateView] is set and [moveObject] is not,
    and none otherwise: [rotateView] is ignored when the object is moved. *)
Theorem nudge_command_count h transformName pixelAmount moveObject rotateView view :
  let run := nudge h transformName pixelAmount moveObject rotateView view in
  snd run = Ok tt ->
  List.length (filter is_move (fst run)) = 2%nat
  /\ List.length (filter is_rotate (fst run))
     = (if negb moveObject && rotateView then 1%nat else 0%nat)
  /\ nudge h transformName pixelAmount true rotateView view
     = nudge h transformName pixelAmount true false view.
Proof.
  intros run H. subst run.
  destruct (nudge_ended h transformName pixelAmount moveObject rotateView view)
    as [(s & Hs & E) | (e & _ & E)]; rewrite E in *; cbn [fst snd] in *;
    [| discriminate H].
  rewrite !(nudge_returns _ _ _ _ _ _ _ Hs).
  unfold nudge_apply. destruct moveObject, rotateView; repeat split; reflexivity.
Qed.

Lemma nudge_command_count_witness :
  List.length (filter is_rotate
     (fst (nudge (Demo.host Demo.view (0, 0, 3)) "pSphere1" (0, 0) false true Demo.view)))
  = 1%nat.
Proof.
  exact (proj1 (proj2 (nudge_command_count (Demo.host Demo.view (0, 0, 3)) "pSphere1"
                         (0, 0) false true Demo.view (nudge_returns_ahead false true)))).
Defined.

Lemma net_translation_two_moves (s : Solved) (node other : string) (tail : list Cmd) :
  net_translation
    (UndoOpenChunk
       :: Move (vx (offsetX s)) (vy (offsetX s)) (vz (offsetX s)) node true
       :: Move (vx (offsetY s)) (vy (offsetY s)) (vz (offsetY s)) node true
       :: tail) other
  = if (node =? other)%string
    then v_add (MVector_of_point (xyz_x s))
               (v_add (MVector_of_point (xyz_y s)) (net_translation tail other))
    else net_translation tail other.
Proof.
  cbn [net_translation]. destruct (node =? other)%string; [| reflexivity].
  apply vector_eq; unfold offsetX, offsetY; maya_unfold; ring.
Qed.

Lemma net_translation_tail (s : Solved) (camera other : string) (rotateView : bool) :
  net_translation
    ((if rotateView then [Rotate (angleY s) (angleX s) 0 camera true true] else [])
     ++ [UndoCloseChunk]) other = zero_vector.
Proof. destruct rotateView; reflexivity. Qed.

(** X12.  What a nudge that returns adds up to: the moved node, the target
    with [moveObject] and the camera without, is translated by the sum of
    the two points the screen-to-world calls returned, taken as vectors from
    the world origin; no other node is translated. *)
Theorem nudge_net_translation h transformName pixelAmount (moveObject : bool)
    rotateView view s :
  nudge_solve h transformName pixelAmount view = Ok s ->
  let run := nudge h transformName pixelAmount moveObject rotateView view in
  let moved := if moveObject then transformName else fullPathName (getCamera view) in
  net_translation (fst run) moved
    = v_add (MVector_of_point (xyz_x s)) (MVector_of_point (xyz_y s))
  /\ forall other, other <> moved -> net_translation (fst run) other = zero_vector.
Proof.
  intros Hs run moved. subst run.
  rewrite (nudge_returns _ _ _ _ _ _ _ Hs). cbn [fst]. unfold nudge_apply.
  split.
  - subst moved. destruct moveObject; cbn [app];
      rewrite net_translation_two_moves, String.eqb_refl;
      rewrite ?net_translation_tail; apply vector_eq; cbn; ring.
  - intros other Hne.
    assert (Hn : (moved =? other)%string = false)
      by (apply String.eqb_neq; intro K; apply Hne; symmetry; exact K).
    subst moved. destruct moveObject; cbn [app];
      rewrite net_translation_two_moves, Hn;
      rewrite ?net_translation_tail; reflexivity.
Qed.

Lemma nudge_net_translation_witness :
  net_translation
    (fst (nudge (Demo.host Demo.view (0, 0, 3)) "pSphere1" (0, 0) true false Demo.view))
    "pSphere1"
  = v_add (MVector_of_point (mkPoint 0 0 3)) (MVector_of_point (mkPoint 0 0 3)).
Proof.
  exact (proj1 (nudge_net_translation (Demo.host Demo.view (0, 0, 3)) "pSphere1" (0, 0)
                  true false Demo.view _ demo_solve_ahead)).
Defined.

Lemma screenToWorld_ok_viewport point2D cam d view p :
  screenToWorld point2D cam d view = Ok p ->
  portWidth view <> 0%Z /\ portHeight view <> 0%Z.
Proof.
  intros H. destruct point2D as [[| x] b]; [discriminate H |].
  destruct (Z.eq_dec (portWidth view) 0) as [Hw | Hw].
  { rewrite (screenToWorld_zero_width _ _ _ _ _ Hw) in H. discriminate H. }
  destruct b as [| y].
  { rewrite (screenToWorld_none_y _ _ _ _ Hw) in H. discriminate H. }
  destruct (Z.eq_dec (portHeight view) 0) as [Hh | Hh].
  { rewrite (screenToWorld_zero_height _ _ _ _ _ Hw Hh) in H. discriminate H. }
  split; assumption.
Qed.

(** X13.  The two solves are independent.  If [nudge] gets through its
    projections for one pair of pixel amounts it does for every pair, with
    the same camera point, target, start direction and distance; the point
    for the x offset depends on [pixelAmount[0]] only, the point for the y
    offset on [pixelAmount[1]] only. *)
Theorem nudge_axes_independent h transformName (dx dy dx' dy' : R) view s :
  nudge_solve h transformName (dx, dy) view = Ok s ->
  exists s',
    nudge_solve h transformName (dx', dy') view = Ok s'
    /\ cameraPoint s' = cameraPoint s
    /\ transformPoint s' = transformPoint s
    /\ startDirVec s' = startDirVec s
    /\ pointDist s' = pointDist s
    /\ (dx' = dx -> xyz_x s' = xyz_x s)
    /\ (dy' = dy -> xyz_y s' = xyz_y s).
Proof.
  intros Hs.
  destruct (nudge_solve_ok _ _ _ _ _ Hs)
    as (x & y & Hw & H1 & H2 & Hc & Ht & Hd & Hp).
  cbn [fst snd] in H1, H2.
  destruct (screenToWorld_ok_viewport _ _ _ _ _ H1) as [HW HH].
  rewrite screenToWorld_floats in H1, H2 by assumption.
  injection H1 as H1. injection H2 as H2.
  unfold nudge_solve. rewrite Hw. cbn [bind py_add fst snd].
  rewrite !screenToWorld_floats by assumption. cbn [bind].
  eexists. split; [reflexivity |].
  cbn [cameraPoint transformPoint startDirVec pointDist xyz_x xyz_y].
  rewrite Hc, Ht, Hd, Hp, <- H1, <- H2.
  repeat split; intros ->; reflexivity.
Qed.

Lemma nudge_axes_independent_witness :
  exists s',
    nudge_solve (Demo.host Demo.view (0, 0, 3)) "pSphere1" (0, 25) Demo.view = Ok s'
    /\ xyz_x s' = mkPoint 0 0 3.
Proof.
  destruct (nudge_axes_independent (Demo.host Demo.view (0, 0, 3)) "pSphere1"
              0 0 0 25 Demo.view _ demo_solve_ahead)
    as (s' & Hs & _ & _ & _ & _ & Hx & _).
  exists s'. split; [exact Hs | exact (Hx eq_refl)].
Defined.

(** X8.  [setDistance] scales the offset from the camera point: if
    [screenToWorld] returns a point for one distance, it returns, for k
    times that distance, the point whose offset from [cameraPoint] is k
    times as long.  So distance 0 gives the camera point and a negated
    distance the mirror image through it; the point returned is cartesian
    (w = 1). *)
Theorem screenToWorld_scales point2D camPoint (setDistance k : R) view p :
  screenToWorld point2D camPoint setDistance view = Ok p ->
  exists p',
    screenToWorld point2D camPoint (k * setDistance) view = Ok p'
    /\ pt_sub p' camPoint = v_scale (pt_sub p camPoint) k
    /\ pw p' = 1.
Proof.
  intros H.
  destruct (screenToWorld_ok_viewport _ _ _ _ _ H) as [HW HH].
  destruct (screenToWorld_inv _ _ _ _ _ H) as (x & y & -> & ->).
  rewrite screenToWorld_floats by assumption.
  eexists. split; [reflexivity |]. split; [| reflexivity].
  rewrite !at_distance_offset. apply vector_eq; cbn; ring.
Qed.

Lemma screenToWorld_scales_witness :
  exists p',
    screenToWorld (PyFloat 960, PyFloat 540) (mkPoint 0 0 10) (-1 * 4) Demo.view = Ok p'
    /\ pt_sub p' (mkPoint 0 0 10) = v_scale (pt_sub (mkPoint 0 0 (10 - 4)) (mkPoint 0 0 10)) (-1)
    /\ pw p' = 1.
Proof.
  exact (screenToWorld_scales (PyFloat 960, PyFloat 540) (mkPoint 0 0 10) 4 (-1)
           Demo.view (mkPoint 0 0 (10 - 4)) (demo_screenToWorld_centre 4)).
Defined.

(** X5.  A target inside the view volume lands inside the viewport: with
    depth at least 0.01, clip w positive and clip x and y between -w and w,
    [worldToScreen] returns a pixel with 0 <= x <= width and
    0 <= y <= height. *)
Theorem worldToScreen_inside_viewport fnCamera camPoint target view :
  0.01 <= depth fnCamera camPoint target ->
  0 < pw (clip view target) ->
  - pw (clip view target) <= px (clip view target) <= pw (clip view target) ->
  - pw (clip view target) <= py (clip view target) <= pw (clip view target) ->
  (0 <= portWidth view)%Z -> (0 <= portHeight view)%Z ->
  exists x y,
    worldToScreen fnCamera camPoint target view = Ok (PyFloat x, PyFloat y)
    /\ 0 <= x <= IZR (portWidth view)
    /\ 0 <= y <= IZR (portHeight view).
Proof.
  intros Hd Hw Hx Hy HW HH.
  assert (Hn : forall c, - pw (clip view target) <= c <= pw (clip view target) ->
                 -1 <= c / pw (clip view target) <= 1).
  { intros c [Hlo Hhi].
    assert (Hi : 0 < / pw (clip view target)) by (apply Rinv_0_lt_compat, Hw).
    assert (E : pw (clip view target) * / pw (clip view target) = 1)
      by (apply Rinv_r; lra).
    unfold Rdiv. split; nra. }
  assert (Hp : forall n dim, -1 <= n <= 1 -> (0 <= dim)%Z ->
                 0 <= (n + 1) / 2 * IZR dim <= IZR dim).
  { intros n dim Hnn Hdim. apply IZR_le in Hdim. split; nra. }
  eexists. eexists. split.
  - apply worldToScreen_visible; [exact Hd | lra].
  - split; apply Hp; auto.
Qed.

Lemma worldToScreen_inside_viewport_witness :
  exists x y,
    worldToScreen (Demo.camera (0, 0, 10)) (mkPoint 0 0 10) (mkPoint 2 (-3) 4) Demo.view
      = Ok (PyFloat x, PyFloat y)
    /\ 0 <= x <= IZR (portWidth Demo.view)
    /\ 0 <= y <= IZR (portHeight Demo.view).
Proof.
  assert (E : clip Demo.view (mkPoint 2 (-3) 4) = mkPoint4 2 (-3) 9 6).
  { unfold clip, Demo.view.
    change (modelViewMatrix (Demo.view_at (0, 0, 10))) with (Demo.view_matrix (0, 0, 10)).
    change (projectionMatrix (Demo.view_at (0, 0, 10))) with Demo.proj.
    rewrite demo_view_projection. apply point_eq; maya_unfold; ring. }
  apply (worldToScreen_inside_viewport (Demo.camera (0, 0, 10)) (mkPoint 0 0 10)
           (mkPoint 2 (-3) 4) Demo.view).
  - unfold depth. maya_unfold. lra.
  - rewrite E. cbn. lra.
  - rewrite E. cbn. lra.
  - rewrite E. cbn. lra.
  - cbn. discriminate.
  - cbn. discriminate.
Defined.

(* ===================================================================== *)
(** * The errors of [parseArgs]                                           *)
(* ===================================================================== *)






(* ===================================================================== *)
(** * Pinhole views: what the projections do together                     *)
(* ===================================================================== *)

(** X1.  World to screen to world.  In a pinhole view with a viewport that
    is not empty and the world origin in front of the camera plane, a
    cartesian target with depth at least 0.01 projects to a pixel, and that
    pixel, converted at the target's distance from the eye, is the target. *)
Theorem roundtrip_origin_in_front view (target : MPoint) :
  pinhole view ->
  portWidth view <> 0%Z -> portHeight view <> 0%Z ->
  pw target = 1 ->
  0.01 <= depth (getCamera view) (eyePoint (getCamera view)) target ->
  0 < depth (getCamera view) (eyePoint (getCamera view)) origin ->
  exists x y,
    worldToScreen (getCamera view) (eyePoint (getCamera view)) target view
      = Ok (PyFloat x, PyFloat y)
    /\ screenToWorld (PyFloat x, PyFloat y) (eyePoint (getCamera view))
         (distance target (eyePoint (getCamera view))) view = Ok target.
Proof.
  intros Hp HW HH Htw Hd Ho.
  exact (pinhole_roundtrip view Hp HW HH target Htw Hd Ho).
Qed.

Lemma roundtrip_origin_in_front_witness :
  exists x y,
    worldToScreen (getCamera Demo.view) (eyePoint (getCamera Demo.view))
                  (mkPoint 0 0 3) Demo.view = Ok (PyFloat x, PyFloat y)
    /\ screenToWorld (PyFloat x, PyFloat y) (eyePoint (getCamera Demo.view))
         (distance (mkPoint 0 0 3) (eyePoint (getCamera Demo.view))) Demo.view
       = Ok (mkPoint 0 0 3).
Proof.
  apply (roundtrip_origin_in_front Demo.view (mkPoint 0 0 3)).
  - exact demo_view_pinhole.
  - cbn; discriminate.
  - cbn; discriminate.
  - reflexivity.
  - unfold depth. maya_unfold. lra.
  - unfold depth, origin. maya_unfold. lra.
Defined.

(** X2.  With the world origin behind the camera plane the same round trip
    returns the mirror image of the target through the eye, a point behind
    the camera. *)
Theorem roundtrip_origin_behind view (target : MPoint) :
  pinhole view ->
  portWidth view <> 0%Z -> portHeight view <> 0%Z ->
  pw target = 1 ->
  0.01 <= depth (getCamera view) (eyePoint (getCamera view)) target ->
  depth (getCamera view) (eyePoint (getCamera view)) origin < 0 ->
  exists x y,
    worldToScreen (getCamera view) (eyePoint (getCamera view)) target view
      = Ok (PyFloat x, PyFloat y)
    /\ screenToWorld (PyFloat x, PyFloat y) (eyePoint (getCamera view))
         (distance target (eyePoint (getCamera view))) view
       = Ok (mirrored target (eyePoint (getCamera view)))
    /\ depth (getCamera view) (eyePoint (getCamera view))
             (mirrored target (eyePoint (getCamera view))) < 0.
Proof.
  intros Hp HW HH Htw Hd Ho.
  destruct (pinhole_roundtrip_mirrored view Hp HW HH target Htw Hd Ho)
    as (x & y & H1 & H2).
  exists x, y. split; [exact H1 |]. split; [exact H2 |].
  revert Hd. unfold depth, mirrored, dot, pt_sub. cbn. lra.
Qed.

Lemma roundtrip_origin_behind_witness :
  let view := Demo.view_at (0, 0, -5) in
  exists x y,
    worldToScreen (getCamera view) (eyePoint (getCamera view)) (mkPoint 0 0 (-7)) view
      = Ok (PyFloat x, PyFloat y)
    /\ screenToWorld (PyFloat x, PyFloat y) (eyePoint (getCamera view))
         (distance (mkPoint 0 0 (-7)) (eyePoint (getCamera view))) view
       = Ok (mirrored (mkPoint 0 0 (-7)) (eyePoint (getCamera view)))
    /\ depth (getCamera view) (eyePoint (getCamera view))
             (mirrored (mkPoint 0 0 (-7)) (eyePoint (getCamera view))) < 0.
Proof.
  apply (roundtrip_origin_behind (Demo.view_at (0, 0, -5)) (mkPoint 0 0 (-7))).
  - exact (demo_pinhole 0 0 (-5)).
  - cbn; discriminate.
  - cbn; discriminate.
  - reflexivity.
  - unfold depth. maya_unfold. lra.
  - unfold depth, origin. maya_unfold. lra.
Defined.

(** X3.  Screen to world to screen.  In a pinhole view, the point
    [screenToWorld] returns for a pixel, from the eye and at any distance,
    projects back to that pixel, provided it passes the depth test of
    [worldToScreen]. *)
Theorem screen_world_screen view (x y setDistance : R) (p : MPoint) :
  pinhole view ->
  screenToWorld (PyFloat x, PyFloat y) (eyePoint (getCamera view)) setDistance view
    = Ok p ->
  0.01 <= depth (getCamera view) (eyePoint (getCamera view)) p ->
  worldToScreen (getCamera view) (eyePoint (getCamera view)) p view
    = Ok (PyFloat x, PyFloat y).
Proof.
  intros Hp Hs Hd.
  destruct (screenToWorld_ok_viewport _ _ _ _ _ Hs) as [HW HH].
  rewrite screenToWorld_floats in Hs by assumption. injection Hs as <-.
  exact (pinhole_world_then_screen view Hp HW HH x y setDistance Hd).
Qed.

Lemma screen_world_screen_witness :
  worldToScreen (getCamera Demo.view) (eyePoint (getCamera Demo.view))
                (mkPoint 0 0 (10 - 4)) Demo.view
    = Ok (PyFloat 960, PyFloat 540).
Proof.
  apply (screen_world_screen Demo.view 960 540 4 (mkPoint 0 0 (10 - 4))).
  - exact demo_view_pinhole.
  - exact (demo_screenToWorld_centre 4).
  - unfold depth. maya_unfold. lra.
Defined.

(** X4.  Projection forgets the distance.  In a pinhole view two cartesian
    points on one ray from the eye, k times as far for the second, project
    to the same pixel when both pass the depth test. *)
Theorem same_ray_same_pixel view (target : MPoint) (k : R) :
  pinhole view ->
  pw target = 1 ->
  let eye := eyePoint (getCamera view) in
  let further := h_add (h_scale k target) (h_scale (1 - k) eye) in
  0.01 <= depth (getCamera view) eye target ->
  0.01 <= depth (getCamera view) eye further ->
  pt_sub further eye = v_scale (pt_sub target eye) k
  /\ worldToScreen (getCamera view) eye further view
     = worldToScreen (getCamera view) eye target view.
Proof.
  intros Hp Htw eye further Hd Hd'. split.
  - apply pt_sub_blend.
  - exact (pinhole_same_ray view Hp target k Htw Hd Hd').
Qed.

Lemma same_ray_same_pixel_witness :
  let eye := eyePoint (getCamera Demo.view) in
  let further := h_add (h_scale 2 (mkPoint 1 2 3)) (h_scale (1 - 2) eye) in
  pt_sub further eye = v_scale (pt_sub (mkPoint 1 2 3) eye) 2
  /\ worldToScreen (getCamera Demo.view) eye further Demo.view
     = worldToScreen (getCamera Demo.view) eye (mkPoint 1 2 3) Demo.view.
Proof.
  apply (same_ray_same_pixel Demo.view (mkPoint 1 2 3) 2).
  - exact demo_view_pinhole.
  - reflexivity.
  - unfold depth. maya_unfold. lra.
  - unfold depth. maya_unfold. lra.
Defined.




(* ===================================================================== *)
(** * The nudge of an object at the world origin                          *)
(* ===================================================================== *)

Lemma Ok_inj {A : Type} (a b : A) : Ok a = Ok b -> a = b.
Proof. intros H. congruence. Qed.

Section ObjectAtOrigin.

Variable view : M3dView.
Hypothesis Hpinhole : pinhole view.

Variable h : Host.
Variable transformName : string.
Hypothesis Hat_origin : worldTranslation h transformName = origin.

Let cam := getCamera view.
Let eye := eyePoint cam.

Variables x y : R.
Hypothesis Hscreen : worldToScreen cam eye origin view = Ok (PyFloat x, PyFloat y).

Lemma origin_visible : 0.01 <= depth cam eye origin.
Proof.
  destruct (Rlt_dec (depth cam eye origin) 0.01) as [Hlt | Hge]; [| lra].
  rewrite (worldToScreen_behind _ _ _ _ Hlt) in Hscreen. discriminate Hscreen.
Qed.

(** The solve: the pixel with no offset converts back to the origin. *)
Lemma origin_nudge_solve (dx dy : R) :
  portWidth view <> 0%Z -> portHeight view <> 0%Z ->
  let dist := length (pt_sub origin eye) in
  nudge_solve h transformName (dx, dy) view
    = Ok (mkSolved eye origin (normalize (pt_sub origin eye)) dist
            (at_distance (unprojected view (x + dx) y) eye dist)
            (at_distance (unprojected view x (y + dy)) eye dist))
  /\ at_distance (unprojected view x y) eye dist = origin.
Proof.
  intros HW HH dist. split.
  - unfold nudge_solve. fold cam. fold eye. rewrite Hat_origin, Hscreen.
    cbn [bind py_add fst snd].
    rewrite !screenToWorld_floats by assumption. reflexivity.
  - pose proof origin_visible as Hd.
    destruct (pinhole_roundtrip view Hpinhole HW HH origin eq_refl Hd)
      as (x' & y' & H1 & H2); [fold cam; fold eye; lra |].
    fold cam in H1, H2. fold eye in H1, H2.
    rewrite Hscreen in H1. injection H1 as <- <-.
    rewrite screenToWorld_floats in H2 by assumption.
    apply Ok_inj in H2. exact H2.
Qed.

(** Where the object is after a nudge along one axis: at the point the
    offset pixel converts to. *)
Lemma origin_nudge_lands (dx dy : R) (rotateView : bool) :
  portWidth view <> 0%Z -> portHeight view <> 0%Z ->
  dx = 0 \/ dy = 0 ->
  let run := nudge h transformName (dx, dy) true rotateView view in
  snd run = Ok tt
  /\ MPoint_of_vector (net_translation (fst run) transformName)
     = at_distance (unprojected view (x + dx) (y + dy)) eye
                   (length (pt_sub origin eye)).
Proof.
  intros HW HH Haxis run. subst run.
  destruct (origin_nudge_solve dx dy HW HH) as [Hs Hback].
  rewrite (nudge_returns _ _ _ true rotateView _ _ Hs). cbn [fst snd].
  split; [reflexivity |].
  unfold nudge_apply. cbn [app].
  rewrite net_translation_two_moves, String.eqb_refl.
  cbn [xyz_x xyz_y net_translation].
  destruct Haxis as [-> | ->]; rewrite Rplus_0_r, Hback;
    unfold at_distance, origin, zero_vector;
    apply point_eq; maya_unfold; ring.
Qed.

End ObjectAtOrigin.

(** X14.  The case the module gets right.  In a pinhole view, for an
    object at the world origin that projects to pixel (x, y), [nudge] with
    [moveObject] and a pixel offset along one axis (dx = 0 or dy = 0)
    returns, and the object's new position (the origin plus the moves sent)
    projects to pixel (x + dx, y + dy), provided that position still passes
    the depth test. *)
Theorem nudge_object_at_origin_lands_on_pixel view h transformName
    (x y dx dy : R) (rotateView : bool) :
  pinhole view ->
  worldTranslation h transformName = origin ->
  worldToScreen (getCamera view) (eyePoint (getCamera view)) origin view
    = Ok (PyFloat x, PyFloat y) ->
  portWidth view <> 0%Z -> portHeight view <> 0%Z ->
  dx = 0 \/ dy = 0 ->
  let run := nudge h transformName (dx, dy) true rotateView view in
  let landed := MPoint_of_vector (net_translation (fst run) transformName) in
  0.01 <= depth (getCamera view) (eyePoint (getCamera view)) landed ->
  snd run = Ok tt
  /\ worldToScreen (getCamera view) (eyePoint (getCamera view)) landed view
     = Ok (PyFloat (x + dx), PyFloat (y + dy)).
Proof.
  intros Hp Ho Hs HW HH Haxis run landed Hd.
  destruct (origin_nudge_lands view Hp h transformName Ho x y Hs dx dy rotateView
              HW HH Haxis) as [Hok Hl].
  split; [exact Hok |].
  subst landed run. rewrite Hl in *.
  exact (pinhole_world_then_screen view Hp HW HH (x + dx) (y + dy) _ Hd).
Qed.

Lemma nudge_object_at_origin_lands_on_pixel_witness :
  let h := Demo.host Demo.view (0, 0, 0) in
  let run := nudge h "pSphere1" (960, 0) true false Demo.view in
  let landed := MPoint_of_vector (net_translation (fst run) "pSphere1") in
  snd run = Ok tt
  /\ worldToScreen (getCamera Demo.view) (eyePoint (getCamera Demo.view)) landed Demo.view
     = Ok (PyFloat (960 + 960), PyFloat (540 + 0)).
Proof.
  assert (HW : portWidth Demo.view <> 0%Z) by (cbn; discriminate).
  assert (HH : portHeight Demo.view <> 0%Z) by (cbn; discriminate).
  assert (Haxis : 960 = 0 \/ 0 = 0) by (right; reflexivity).
  apply (nudge_object_at_origin_lands_on_pixel Demo.view
           (Demo.host Demo.view (0, 0, 0)) "pSphere1" 960 540 960 0 false
           demo_view_pinhole eq_refl demo_origin_pixel HW HH Haxis).
  rewrite (proj2 (origin_nudge_lands Demo.view demo_view_pinhole
                    (Demo.host Demo.view (0, 0, 0)) "pSphere1" eq_refl
                    960 540 demo_origin_pixel 960 0 false HW HH Haxis)).
  exact demo_right_edge_depth.
Defined.

(* ===================================================================== *)
(** * The script                                                          *)
(* ===================================================================== *)

(** X17.  The script body, in any session: without a transform named
    [pSphere1] it raises RuntimeError and sends nothing; with one it is the
    camera-mode nudge of the active view with re-aim, so that a run that
    returns has sent five commands, open chunk, two moves and one rotation
    of the active view's camera, close chunk, and none of them names
    [pSphere1]. *)
Theorem main_nudges_active_camera (h : Host) :
  let camera := fullPathName (getCamera (active3dView h)) in
  "pSphere1"%string <> camera ->
  (valid_transform h "pSphere1" ->
     main h = nudge h "pSphere1" (10, 10) false true (active3dView h))
  /\ (~ valid_transform h "pSphere1" ->
        main h = ([], Raise (RuntimeError NotATransform)))
  /\ mutated (fst (main h)) "pSphere1" = false
  /\ (snd (main h) = Ok tt ->
        exists ox oy aY aX,
          fst (main h)
          = [ UndoOpenChunk;
              Move (vx ox) (vy ox) (vz ox) camera true;
              Move (vx oy) (vy oy) (vz oy) camera true;
              Rotate aY aX 0 camera true true;
              UndoCloseChunk ]).
Proof.
  intros camera Hne.
  assert (Hn : (camera =? "pSphere1")%string = false)
    by (apply String.eqb_neq; intro K; apply Hne; symmetry; exact K).
  assert (Hvalid : valid_transform h "pSphere1" ->
            main h = nudge h "pSphere1" (10, 10) false true (active3dView h)).
  { intros Hv. unfold main, parseArgs.
    rewrite (parseArgs_checks_valid _ _ _ Hv). reflexivity. }
  assert (Hinvalid : ~ valid_transform h "pSphere1" ->
            main h = ([], Raise (RuntimeError NotATransform))).
  { intros Hv. unfold main, parseArgs, parseArgs_checks.
    cbn [String.eqb Ascii.eqb Bool.eqb].
    destruct (objExists h "pSphere1") eqn:Eo; cbn [negb orb]; [| reflexivity].
    destruct (nodeType h "pSphere1" =? "transform")%string eqn:Et;
      cbn [negb]; [| reflexivity].
    exfalso. apply Hv. apply String.eqb_eq in Et.
    repeat split; [discriminate | exact Eo | exact Et]. }
  split; [exact Hvalid |]. split; [exact Hinvalid |].
  assert (Hdec : valid_transform h "pSphere1" \/ ~ valid_transform h "pSphere1").
  { unfold valid_transform.
    destruct (objExists h "pSphere1") eqn:Eo;
      [| right; intros (_ & K & _); discriminate K].
    destruct (nodeType h "pSphere1" =? "transform")%string eqn:Et.
    - left. apply String.eqb_eq in Et. repeat split; [discriminate | exact Et].
    - right. apply String.eqb_neq in Et. intros (_ & _ & K). contradiction. }
  destruct Hdec as [Hv | Hv].
  - rewrite (Hvalid Hv).
    destruct (nudge_ended h "pSphere1" (10, 10) false true (active3dView h))
      as [(s & _ & E) | (e & _ & E)]; rewrite E; cbn [fst snd].
    + fold camera. unfold nudge_apply, mutated. cbn [app existsb mutates].
      rewrite Hn. split; [reflexivity |].
      intros _. exists (offsetX s), (offsetY s), (angleY s), (angleX s). reflexivity.
    + split; [reflexivity | intros K; discriminate K].
  - rewrite (Hinvalid Hv). cbn [fst snd]. split; [reflexivity |].
    intros K. discriminate K.
Qed.

Lemma main_nudges_active_camera_witness :
  mutated (fst (main (Demo.host Demo.view (0, 0, 3)))) "pSphere1" = false.
Proof.
  apply (main_nudges_active_camera (Demo.host Demo.view (0, 0, 3))).
  cbn. discriminate.
Defined.

(* ===================================================================== *)
(** * The re-aim of a zero offset                                         *)
(* ===================================================================== *)

Lemma angle_self (v : MVector) : v <> zero_vector -> angle v v = 0.
Proof.
  intros Hv. pose proof (length_pos v Hv) as Hl.
  unfold angle. rewrite <- length_sqr.
  replace (length v * length v / (length v * length v)) with 1 by (field; lra).
  apply acos_1.
Qed.

Lemma normalize_nonzero (v : MVector) : v <> zero_vector -> normalize v <> zero_vector.
Proof.
  intros Hv E. pose proof (length_normalize v Hv) as H1.
  rewrite E in H1.
  assert (H0 : length zero_vector = 0) by (apply length_zero_iff; reflexivity).
  lra.
Qed.

(** X18.  With no pixel offset the re-aim is no rotation.  In a pinhole
    view with a viewport that is not empty and the world origin in front of
    the camera, a camera-mode nudge by (0, 0) with [rotateView] of a target
    that passes the depth test sends the two moves of the target's world
    position and then the rotation (0, 0, 0). *)
Theorem zero_offset_reaim_is_null h transformName view :
  pinhole view ->
  portWidth view <> 0%Z -> portHeight view <> 0%Z ->
  let camera := fullPathName (getCamera view) in
  let eye := eyePoint (getCamera view) in
  let target := worldTranslation h transformName in
  0.01 <= depth (getCamera view) eye target ->
  0 < depth (getCamera view) eye origin ->
  nudge h transformName (0, 0) false true view
    = ([ UndoOpenChunk;
         Move (px target) (py target) (pz target) camera true;
         Move (px target) (py target) (pz target) camera true;
         Rotate 0 0 0 camera true true;
         UndoCloseChunk ], Ok tt).
Proof.
  intros Hp HW HH camera eye target Hd Ho.
  pose proof (pinhole_nudge_solve_zero_offset view Hp HW HH h transformName Hd Ho)
    as Hs.
  cbv zeta in Hs. fold eye in Hs. fold target in Hs.
  rewrite (nudge_returns _ _ _ false true _ _ Hs). fold camera.
  assert (Hv : pt_sub target eye <> zero_vector).
  { apply (depth_nonzero_apart (getCamera view)). lra. }
  assert (Ha : angle (normalize (pt_sub target eye)) (normalize (pt_sub target eye)) = 0)
    by (apply angle_self, normalize_nonzero, Hv).
  unfold nudge_apply, offsetX, offsetY, angleX, angleY.
  cbn [xyz_x xyz_y transformPoint cameraPoint startDirVec app].
  rewrite Ha.
  replace (v_add (pt_sub target target) (MVector_of_point target))
    with (MVector_of_point target) by (apply vector_eq; maya_unfold; ring).
  replace (- degrees 0) with 0 by (unfold degrees; ring).
  replace (degrees 0) with 0 by (unfold degrees; ring).
  reflexivity.
Qed.

Lemma zero_offset_reaim_is_null_witness :
  nudge (Demo.host Demo.view (0, 0, 3)) "pSphere1" (0, 0) false true Demo.view
    = ([ UndoOpenChunk;
         Move 0 0 3 "|persp|perspShape" true;
         Move 0 0 3 "|persp|perspShape" true;
         Rotate 0 0 0 "|persp|perspShape" true true;
         UndoCloseChunk ], Ok tt).
Proof.
  apply (zero_offset_reaim_is_null (Demo.host Demo.view (0, 0, 3)) "pSphere1" Demo.view).
  - exact demo_view_pinhole.
  - cbn; discriminate.
  - cbn; discriminate.
  - unfold depth. maya_unfold. lra.
  - unfold depth, origin. maya_unfold. lra.
Defined.
